(** * telegramsender: a shallow embedding of the resilient send pipeline

    The Go package [telegramsender] (configuration, validation helpers and
    the Telegram client) is translated function by function.  Conventions:

    - [int], [int64] and [time.Duration] are [Z] (a Duration counts
      nanoseconds); 64-bit wrap-around is written out with [wrap64];
    - [float64] is idealised as an exact rational ([Q]): rounding of the
      binary64 format is not modelled, conversions to integers truncate
      toward zero as in Go;
    - Go strings are [string] (a sequence of bytes, [String.length] is [len]);
    - a Go [error] is a value of [GoError]; a possibly-nil error is an
      [option GoError];
    - the world outside the package (clock, network, limiter, JSON decoder)
      is a script that is passed in explicitly; the logger and the circuit
      breaker are explicit state. *)

From Stdlib Require Import ZArith QArith Qround Qpower String Ascii List Bool Lia.
Import ListNotations.

Open Scope string_scope.
Open Scope Z_scope.

(** ** Machine integers and durations *)

Definition wrap64 (z : Z) : Z := (z + 2 ^ 63) mod 2 ^ 64 - 2 ^ 63.

Definition in_int64 (z : Z) : bool := (- 2 ^ 63 <=? z) && (z <? 2 ^ 63).

Definition Nanosecond : Z := 1.
Definition Millisecond : Z := 1000000.
Definition Second : Z := 1000000000.

(** [time.Duration(f)] / [int64(f)] for a float64 [f]: truncation toward
    zero.  Outside the int64 range Go leaves the value to the implementation;
    amd64 yields the "integer indefinite" value [-2^63]. *)
Definition float64_to_int64 (f : Q) : Z :=
  let z := Z.quot (Qnum f) (Z.pos (Qden f)) in
  if in_int64 z then z else - 2 ^ 63.

(** [float64(i)] for an integer [i]. *)
Definition int_to_float64 (i : Z) : Q := inject_Z i.

(** ** Package strings *)

Module strings.

Definition HasPrefix (s prefix : string) : bool := String.prefix prefix s.

Fixpoint Contains (s substr : string) : bool :=
  HasPrefix s substr ||
  match s with
  | EmptyString => false
  | String _ rest => Contains rest substr
  end.

(** [strings.Split(s, sep)] for a one-byte separator. *)
Fixpoint Split (s : string) (sep : ascii) : list string :=
  match s with
  | EmptyString => [EmptyString]
  | String c rest =>
      if Ascii.eqb c sep then EmptyString :: Split rest sep
      else match Split rest sep with
           | p :: ps => String c p :: ps
           | [] => [String c EmptyString]
           end
  end.

End strings.

(** ** Package strconv *)

Module strconv.

Inductive NumError : Type := ErrSyntax | ErrRange.

Definition isDigit (c : ascii) : bool :=
  let n := Z.of_N (N_of_ascii c) in (48 <=? n) && (n <=? 57).

Definition digitVal (c : ascii) : Z := Z.of_N (N_of_ascii c) - 48.

(** The digit loop of [ParseUint(s, 10, 64)]. *)
Fixpoint parseUintLoop (s : string) (n : Z) : NumError + Z :=
  match s with
  | EmptyString => inr n
  | String c rest =>
      if isDigit c then
        let n1 := n * 10 + digitVal c in
        if 2 ^ 64 <=? n1 then inl ErrRange else parseUintLoop rest n1
      else inl ErrSyntax
  end.

Definition ParseUint (s : string) : NumError + Z :=
  match s with
  | EmptyString => inl ErrSyntax
  | _ => parseUintLoop s 0
  end.

(** [ParseInt(s, 10, 64)]. *)
Definition ParseInt (s : string) : NumError + Z :=
  match s with
  | EmptyString => inl ErrSyntax
  | String c rest =>
      let neg := Ascii.eqb c "-"%char in
      let digits := if Ascii.eqb c "+"%char || neg then rest else s in
      match ParseUint digits with
      | inl ErrSyntax => inl ErrSyntax
      | inl ErrRange => inl ErrRange
      | inr un =>
          if negb neg && (2 ^ 63 <=? un) then inl ErrRange
          else if neg && (2 ^ 63 <? un) then inl ErrRange
          else inr (if neg then - un else un)
      end
  end.

(** [Atoi(s)]: [int] is 64 bits wide. *)
Definition Atoi (s : string) : NumError + Z := ParseInt s.

Definition digitChar (d : Z) : ascii := ascii_of_N (Z.to_N (48 + d)).

(** Decimal digits of a non-negative number, most significant first. *)
Fixpoint formatDigits (fuel : nat) (n : Z) (acc : string) : string :=
  match fuel with
  | O => acc
  | S fuel' =>
      let acc' := String (digitChar (n mod 10)) acc in
      if n <? 10 then acc' else formatDigits fuel' (n / 10) acc'
  end.

(** [Itoa(i)], also what the verb [%d] prints. *)
Definition Itoa (i : Z) : string :=
  if i <? 0 then String "-"%char (formatDigits (S (Z.to_nat (Z.log2 (- i)))) (- i) "")
  else formatDigits (S (Z.to_nat (Z.log2 i))) i "".

End strconv.

(** ** Go errors

    Only the dynamic types that can flow through this package are kept:
    - [errorString]: [errors.New] and [fmt.Errorf] without [%w];
    - [wrapError]: [fmt.Errorf] with one [%w] ([msg] is the whole text);
    - [Canceled]: the sentinel [context.Canceled];
    - [DeadlineExceeded]: the sentinel [context.DeadlineExceeded], of type
      [deadlineExceededError], which has methods [Timeout] and [Temporary];
    - [opError]: a leaf [net.Error] such as [*net.OpError];
    - [urlError]: [*url.Error], what [http.Client.Do] and [url.Parse] return;
    - [ErrOpenState], [ErrTooManyRequests]: the sentinels of gobreaker. *)

Inductive GoError : Type :=
| errorString (s : string)
| wrapError (msg : string) (err : GoError)
| Canceled
| DeadlineExceeded
| opError (msg : string) (timeout : bool)
| urlError (Op URL : string) (Err : GoError)
| ErrOpenState
| ErrTooManyRequests.

(** [%q] on a string without characters that need escaping. *)
Definition dquote : string := String (ascii_of_nat 34) EmptyString.
Definition quote (s : string) : string := dquote ++ s ++ dquote.

(** [err.Error()]. *)
Fixpoint Error (err : GoError) : string :=
  match err with
  | errorString s => s
  | wrapError msg _ => msg
  | Canceled => "context canceled"
  | DeadlineExceeded => "context deadline exceeded"
  | opError msg _ => msg
  | urlError op url e => op ++ " " ++ quote url ++ ": " ++ Error e
  | ErrOpenState => "circuit breaker is open"
  | ErrTooManyRequests => "too many requests"
  end.

(** [err.Unwrap()], where the dynamic type has it. *)
Definition Unwrap (err : GoError) : option GoError :=
  match err with
  | wrapError _ e => Some e
  | urlError _ _ e => Some e
  | _ => None
  end.

(** The method [Timeout() bool] of the types that declare one. *)
Fixpoint Timeout (err : GoError) : option bool :=
  match err with
  | DeadlineExceeded => Some true
  | opError _ t => Some t
  | urlError _ _ e =>
      match Timeout e with
      | Some t => Some t
      | None => Some false
      end
  | _ => None
  end.

(** Does the dynamic type implement [net.Error]
    ([Error], [Timeout] and [Temporary])? *)
Definition implements_netError (err : GoError) : bool :=
  match err with
  | DeadlineExceeded | opError _ _ | urlError _ _ _ => true
  | _ => false
  end.

Definition GoError_eqb_sentinel (err target : GoError) : bool :=
  match err, target with
  | Canceled, Canceled => true
  | DeadlineExceeded, DeadlineExceeded => true
  | ErrOpenState, ErrOpenState => true
  | ErrTooManyRequests, ErrTooManyRequests => true
  | _, _ => false
  end.

Module errors.

Definition New (s : string) : GoError := errorString s.

(** [errors.Is(err, target)] for a sentinel [target]. *)
Fixpoint Is (err target : GoError) : bool :=
  GoError_eqb_sentinel err target ||
  match err with
  | wrapError _ e => Is e target
  | urlError _ _ e => Is e target
  | _ => false
  end.

(** [errors.As(err, &netErr)] with [var netErr net.Error]: the first error
    of the chain whose type implements [net.Error]. *)
Fixpoint As_netError (err : GoError) : option GoError :=
  if implements_netError err then Some err
  else match err with
       | wrapError _ e => As_netError e
       | _ => None
       end.

End errors.

Module fmt.

(** [fmt.Errorf(prefix + "%w", err)]. *)
Definition Errorf_w (prefix : string) (err : GoError) : GoError :=
  wrapError (prefix ++ Error err) err.

End fmt.

(** ** Configuration *)

Record Config : Type := {
  (* API configuration *)
  BotToken : string;
  BaseURL : string;
  (* HTTP client settings *)
  RequestTimeout : Z;
  KeepAlive : Z;
  MaxIdleConns : Z;
  IdleConnTimeout : Z;
  (* Rate limiting *)
  RateLimitRequests : Q;
  RateLimitBurst : Z;
  (* Circuit breaker *)
  BreakerMaxRequests : Z;
  BreakerInterval : Z;
  BreakerTimeout : Z;
  (* Retry settings *)
  MaxRetries : Z;
  RetryInitialBackoff : Z;
  RetryMaxBackoff : Z;
  RetryBackoffFactor : Q;
  (* Logging *)
  LogFilePath : string
}.

(** ** Validation helpers *)

Definition is_empty (s : string) : bool :=
  match s with EmptyString => true | _ => false end.

(** validateBotToken checks if the token has the correct format. *)
Definition validateBotToken (token : string) : bool :=
  if (Z.of_nat (String.length token) <? 10) || negb (strings.Contains token ":")
  then false
  else
    match strings.Split token ":"%char with
    | [part0; part1] =>
        match strconv.ParseInt part0 with
        | inl _ => false
        | inr _ => if Z.of_nat (String.length part1) <? 30 then false else true
        end
    | _ => false
    end.

(** ValidateConfig performs pre-flight sanity checks. *)
Definition ValidateConfig (cfg : Config) : option GoError :=
  if is_empty cfg.(BotToken) then
    Some (errors.New "BOT_TOKEN must be set")
  else if negb (validateBotToken cfg.(BotToken)) then
    Some (errors.New "BOT_TOKEN format is invalid")
  else if is_empty cfg.(LogFilePath) then
    Some (errors.New "LOG_FILE_PATH must be set")
  else if is_empty cfg.(BaseURL) then
    Some (errors.New "BASE_URL must be set")
  else if cfg.(RequestTimeout) <=? 0 then
    Some (errors.New "REQUEST_TIMEOUT must be positive")
  else if cfg.(RetryInitialBackoff) <=? 0 then
    Some (errors.New "RETRY_INITIAL_BACKOFF must be positive")
  else if cfg.(RetryMaxBackoff) <=? 0 then
    Some (errors.New "RETRY_MAX_BACKOFF must be positive")
  else if Qle_bool cfg.(RetryBackoffFactor) 0 then
    Some (errors.New "RETRY_BACKOFF_FACTOR must be positive")
  else if cfg.(MaxRetries) <? 0 then
    Some (errors.New "MAX_RETRIES must be non-negative")
  else None.

(** The defaults of [LoadConfig], with a token of the documented shape. *)
Definition sampleToken : string := "123456789:ABCDefGhIJKlmNoPQRsTUVwxyZ0123456789".

Definition defaultConfig : Config := {|
  BotToken := sampleToken;
  BaseURL := "https://api.telegram.org";
  RequestTimeout := 10 * Second;
  KeepAlive := 30 * Second;
  MaxIdleConns := 10;
  IdleConnTimeout := 90 * Second;
  RateLimitRequests := 10;
  RateLimitBurst := 20;
  BreakerMaxRequests := 5;
  BreakerInterval := 120 * Second;
  BreakerTimeout := 60 * Second;
  MaxRetries := 3;
  RetryInitialBackoff := 100 * Millisecond;
  RetryMaxBackoff := 10 * Second;
  RetryBackoffFactor := 2;
  LogFilePath := "logs/telegramsender.log"
|}.


(** ** Observable events

    What a call leaves behind: the records handed to the [slog] logger, the
    HTTP round trips started, and the backoff waits that ran to completion. *)

Inductive Value : Type :=
| VString (s : string)
| VInt (i : Z)
| VBool (b : bool)
| VError (e : GoError)
| VDuration (d : Z).   (* the text [d.String()] of a Duration *)

Inductive Event : Type :=
| Log (level msg : string) (attrs : list (string * Value))
| NetCall (url : string)    (* [t.httpClient.Do(req)] for this URL *)
| Slept (d : Z).            (* [<-time.After(d)] fired *)

(** ** Package math *)

Module math.

(** [math.Pow(x, y)] at an integral [y], the only way it is called. *)
Definition Pow (x : Q) (y : Z) : Q := Qpower x y.

End math.

(** ** Package github.com/sony/gobreaker

    The breaker is a library the package only configures; its state machine
    is written out after the library's [Execute], [beforeRequest],
    [afterRequest], [currentState], [setState] and [toNewGeneration].
    A [time.Time] is a count of nanoseconds, the zero time is [None]. *)

Module gobreaker.

Inductive State : Type := StateClosed | StateHalfOpen | StateOpen.

Definition State_String (s : State) : string :=
  match s with
  | StateClosed => "closed"
  | StateHalfOpen => "half-open"
  | StateOpen => "open"
  end.

Definition State_eqb (a b : State) : bool :=
  match a, b with
  | StateClosed, StateClosed | StateHalfOpen, StateHalfOpen
  | StateOpen, StateOpen => true
  | _, _ => false
  end.

Definition wrap32 (z : Z) : Z := z mod 2 ^ 32.

Record Counts : Type := {
  Requests : Z;
  TotalSuccesses : Z;
  TotalFailures : Z;
  ConsecutiveSuccesses : Z;
  ConsecutiveFailures : Z
}.

Definition Counts_onRequest (c : Counts) : Counts :=
  {| Requests := wrap32 (c.(Requests) + 1);
     TotalSuccesses := c.(TotalSuccesses);
     TotalFailures := c.(TotalFailures);
     ConsecutiveSuccesses := c.(ConsecutiveSuccesses);
     ConsecutiveFailures := c.(ConsecutiveFailures) |}.

Definition Counts_onSuccess (c : Counts) : Counts :=
  {| Requests := c.(Requests);
     TotalSuccesses := wrap32 (c.(TotalSuccesses) + 1);
     TotalFailures := c.(TotalFailures);
     ConsecutiveSuccesses := wrap32 (c.(ConsecutiveSuccesses) + 1);
     ConsecutiveFailures := 0 |}.

Definition Counts_onFailure (c : Counts) : Counts :=
  {| Requests := c.(Requests);
     TotalSuccesses := c.(TotalSuccesses);
     TotalFailures := wrap32 (c.(TotalFailures) + 1);
     ConsecutiveSuccesses := 0;
     ConsecutiveFailures := wrap32 (c.(ConsecutiveFailures) + 1) |}.

Definition Counts_clear : Counts :=
  {| Requests := 0; TotalSuccesses := 0; TotalFailures := 0;
     ConsecutiveSuccesses := 0; ConsecutiveFailures := 0 |}.

Record Settings : Type := {
  Name : string;
  MaxRequests : Z;
  Interval : Z;
  Timeout : Z;
  ReadyToTrip : Counts -> bool;
  OnStateChange : string -> State -> State -> list Event
}.

Record CircuitBreaker : Type := {
  name : string;
  maxRequests : Z;
  interval : Z;
  timeout : Z;
  readyToTrip : Counts -> bool;
  onStateChange : string -> State -> State -> list Event;
  state : State;
  generation : Z;
  counts : Counts;
  expiry : option Z
}.

Definition with_state (cb : CircuitBreaker) (s : State) : CircuitBreaker :=
  {| name := cb.(name); maxRequests := cb.(maxRequests);
     interval := cb.(interval); timeout := cb.(timeout);
     readyToTrip := cb.(readyToTrip); onStateChange := cb.(onStateChange);
     state := s; generation := cb.(generation);
     counts := cb.(counts); expiry := cb.(expiry) |}.

Definition with_counts (cb : CircuitBreaker) (c : Counts) : CircuitBreaker :=
  {| name := cb.(name); maxRequests := cb.(maxRequests);
     interval := cb.(interval); timeout := cb.(timeout);
     readyToTrip := cb.(readyToTrip); onStateChange := cb.(onStateChange);
     state := cb.(state); generation := cb.(generation);
     counts := c; expiry := cb.(expiry) |}.

Definition toNewGeneration (cb : CircuitBreaker) (now : Z) : CircuitBreaker :=
  {| name := cb.(name); maxRequests := cb.(maxRequests);
     interval := cb.(interval); timeout := cb.(timeout);
     readyToTrip := cb.(readyToTrip); onStateChange := cb.(onStateChange);
     state := cb.(state);
     generation := cb.(generation) + 1;
     counts := Counts_clear;
     expiry :=
       match cb.(state) with
       | StateClosed =>
           if cb.(interval) =? 0 then None else Some (now + cb.(interval))
       | StateOpen => Some (now + cb.(timeout))
       | StateHalfOpen => None
       end |}.

Definition setState (cb : CircuitBreaker) (s : State) (now : Z)
  : CircuitBreaker * list Event :=
  if State_eqb cb.(state) s then (cb, [])
  else (toNewGeneration (with_state cb s) now,
        cb.(onStateChange) cb.(name) cb.(state) s).

Definition currentState (cb : CircuitBreaker) (now : Z)
  : CircuitBreaker * list Event :=
  match cb.(state) with
  | StateClosed =>
      match cb.(expiry) with
      | Some e => if e <? now then (toNewGeneration cb now, []) else (cb, [])
      | None => (cb, [])
      end
  | StateOpen =>
      match cb.(expiry) with
      | Some e => if e <? now then setState cb StateHalfOpen now else (cb, [])
      | None => setState cb StateHalfOpen now
      end
  | StateHalfOpen => (cb, [])
  end.

(** Returns the generation and the error ([ErrOpenState],
    [ErrTooManyRequests] or nil). *)
Definition beforeRequest (cb : CircuitBreaker) (now : Z)
  : (Z * option GoError) * CircuitBreaker * list Event :=
  let '(cb1, evs) := currentState cb now in
  match cb1.(state) with
  | StateOpen => ((cb1.(generation), Some ErrOpenState), cb1, evs)
  | StateHalfOpen =>
      if cb1.(maxRequests) <=? cb1.(counts).(Requests)
      then ((cb1.(generation), Some ErrTooManyRequests), cb1, evs)
      else ((cb1.(generation), None),
            with_counts cb1 (Counts_onRequest cb1.(counts)), evs)
  | StateClosed =>
      ((cb1.(generation), None),
       with_counts cb1 (Counts_onRequest cb1.(counts)), evs)
  end.

Definition onSuccess (cb : CircuitBreaker) (now : Z)
  : CircuitBreaker * list Event :=
  match cb.(state) with
  | StateClosed => (with_counts cb (Counts_onSuccess cb.(counts)), [])
  | StateHalfOpen =>
      let cb1 := with_counts cb (Counts_onSuccess cb.(counts)) in
      if cb1.(maxRequests) <=? cb1.(counts).(ConsecutiveSuccesses)
      then setState cb1 StateClosed now
      else (cb1, [])
  | StateOpen => (cb, [])
  end.

Definition onFailure (cb : CircuitBreaker) (now : Z)
  : CircuitBreaker * list Event :=
  match cb.(state) with
  | StateClosed =>
      let cb1 := with_counts cb (Counts_onFailure cb.(counts)) in
      if cb1.(readyToTrip) cb1.(counts)
      then setState cb1 StateOpen now
      else (cb1, [])
  | StateHalfOpen => setState cb StateOpen now
  | StateOpen => (cb, [])
  end.

Definition afterRequest (cb : CircuitBreaker) (now : Z) (before : Z)
  (success : bool) : CircuitBreaker * list Event :=
  let '(cb1, evs) := currentState cb now in
  if negb (cb1.(generation) =? before) then (cb1, evs)
  else
    let '(cb2, evs2) :=
      if success then onSuccess cb1 now else onFailure cb1 now in
    (cb2, (evs ++ evs2)%list).

(** The default [IsSuccessful]: [err == nil]. *)
Definition isSuccessful {R : Type} (res : GoError + R) : bool :=
  match res with inr _ => true | inl _ => false end.

(** [cb.Execute(req)].  [req] yields either its error or its result,
    and the events it caused; [tBefore] and [tAfter] are the readings of
    the clock in [beforeRequest] and [afterRequest]. *)
Definition Execute {R : Type} (cb : CircuitBreaker) (tBefore tAfter : Z)
  (req : unit -> (GoError + R) * list Event)
  : (GoError + R) * CircuitBreaker * list Event :=
  let '(ge, cb1, evs1) := beforeRequest cb tBefore in
  match snd ge with
  | Some err => (inl err, cb1, evs1)
  | None =>
      let '(res, evs) := req tt in
      let '(cb2, evs2) :=
        afterRequest cb1 tAfter (fst ge) (isSuccessful res) in
      (res, cb2, (evs1 ++ evs ++ evs2)%list)
  end.

Definition NewCircuitBreaker (st : Settings) (now : Z) : CircuitBreaker :=
  toNewGeneration
    {| name := st.(Name);
       maxRequests := if st.(MaxRequests) =? 0 then 1 else st.(MaxRequests);
       interval := if st.(Interval) <=? 0 then 0 else st.(Interval);
       timeout := if st.(Timeout) <=? 0 then 60 * Second else st.(Timeout);
       readyToTrip := st.(ReadyToTrip);
       onStateChange := st.(OnStateChange);
       state := StateClosed;
       generation := 0;
       counts := Counts_clear;
       expiry := None |} now.

End gobreaker.

(** ** The client: types *)

Record TelegramResponse : Type := {
  OK : bool;
  Result : string;
  ErrorCode : Z;
  Description : string;
  (* not part of the API response: carries the Retry-After header *)
  RetryAfter : Z
}.

Record MessageResult : Type := { MessageID : Z }.

(** The fields [json.Unmarshal] fills from a response body ([RetryAfter]
    is tagged [json:"-"] and stays zero). *)
Record Envelope : Type := {
  ok : bool;
  result : string;
  error_code : Z;
  description : string
}.

(** The logger, the HTTP client and the limiter of the Go struct live in the
    event trace and in the [World]; the breaker is the mutable part. *)
Record TelegramAPI : Type := {
  config : Config;
  breaker : gobreaker.CircuitBreaker
}.

Definition with_breaker (t : TelegramAPI) (cb : gobreaker.CircuitBreaker)
  : TelegramAPI :=
  {| config := t.(config); breaker := cb |}.

(** What one call of [executeRequest] meets, step by step. *)
Inductive RoundTrip : Type :=
| MarshalFails (err : GoError)         (* json.Marshal(payload) *)
| NewRequestFails (cause : GoError)    (* url.Parse inside http.NewRequestWithContext *)
| DoFails (cause : GoError)            (* t.httpClient.Do(req) *)
| ReadAllFails (err : GoError)         (* io.ReadAll(resp.Body) *)
| UnmarshalFails (err : GoError)       (* json.Unmarshal(body, &telegramResp) *)
| Responds (StatusCode : Z) (RetryAfterHeader : string) (body : Envelope).

(** The surroundings of one [SendMessage] call, indexed by attempt. *)
Record World : Type := {
  (* t.limiter.Wait(ctx) *)
  limiterWait : Z -> option GoError;
  (* time.Now() in the breaker, before and after the request *)
  clock : Z -> Z * Z;
  roundTrip : Z -> RoundTrip;
  (* json.Unmarshal(telegramResp.Result, &msgResult) *)
  unmarshalResult : string -> GoError + MessageResult;
  (* in the wait after an attempt: [Some ctx.Err()] when [ctx.Done()] is
     ready before the timer fires *)
  ctxDone : Z -> option GoError
}.

(** ** The client: constructor *)

(** Trip the circuit breaker when error rate exceeds 50% and we have at
    least 5 requests. *)
Definition readyToTrip (counts : gobreaker.Counts) : bool :=
  (counts.(gobreaker.Requests) >? 5) &&
  Qle_bool (1 # 2)
    (int_to_float64 counts.(gobreaker.TotalFailures)
     / int_to_float64 counts.(gobreaker.Requests)).

Definition logStateChange (name : string) (from to : gobreaker.State)
  : list Event :=
  [Log "INFO" "circuit breaker state changed"
     [("name", VString name);
      ("from", VString (gobreaker.State_String from));
      ("to", VString (gobreaker.State_String to))]].

Definition NewTelegramAPI (cfg : Config) (now : Z) : TelegramAPI :=
  let cbSettings :=
    {| gobreaker.Name := "TelegramAPICircuitBreaker";
       gobreaker.MaxRequests := cfg.(BreakerMaxRequests);
       gobreaker.Interval := cfg.(BreakerInterval);
       gobreaker.Timeout := cfg.(BreakerTimeout);
       gobreaker.ReadyToTrip := readyToTrip;
       gobreaker.OnStateChange := logStateChange |} in
  {| config := cfg;
     breaker := gobreaker.NewCircuitBreaker cbSettings now |}.

(** ** The client: private methods *)

Definition executeRequest (t : TelegramAPI) (rt : RoundTrip) (method : string)
  : (GoError + TelegramResponse) * list Event :=
  (* Build the actual URL with the token *)
  let url := t.(config).(BaseURL) ++ "/bot" ++ t.(config).(BotToken)
             ++ "/" ++ method in
  (* Create a redacted URL for logging that hides the token *)
  let redactedURL := t.(config).(BaseURL) ++ "/bot[REDACTED]/" ++ method in
  match rt with
  | MarshalFails err =>
      (inl (fmt.Errorf_w "failed to marshal request: " err), [])
  | NewRequestFails cause =>
      (inl (fmt.Errorf_w ("failed to create request to " ++ redactedURL ++ ": ")
              (urlError "parse" url cause)), [])
  | DoFails cause =>
      (inl (fmt.Errorf_w "request failed: " (urlError "Post" url cause)),
       [NetCall url])
  | ReadAllFails err =>
      (inl (fmt.Errorf_w "failed to read response: " err), [NetCall url])
  | UnmarshalFails err =>
      (inl (fmt.Errorf_w "failed to parse response: " err), [NetCall url])
  | Responds statusCode retryAfter body =>
      let telegramResp :=
        {| OK := body.(ok); Result := body.(result);
           ErrorCode := body.(error_code);
           Description := body.(description); RetryAfter := 0 |} in
      (* Handle non-OK responses as errors *)
      if negb telegramResp.(OK) then
        let logged :=
          Log "ERROR" "telegram API error"
            [("method", VString method);
             ("url", VString redactedURL);
             ("status_code", VInt statusCode);
             ("error_code", VInt telegramResp.(ErrorCode));
             ("description", VString telegramResp.(Description));
             ("retry_after", VString retryAfter)] in
        let telegramResp' :=
          if (telegramResp.(ErrorCode) =? 429) && negb (is_empty retryAfter)
          then match strconv.Atoi retryAfter with
               | inr seconds =>
                   {| OK := telegramResp.(OK);
                      Result := telegramResp.(Result);
                      ErrorCode := telegramResp.(ErrorCode);
                      Description := telegramResp.(Description);
                      RetryAfter := wrap64 (seconds * Second) |}
               | inl _ => telegramResp
               end
          else telegramResp in
        (inr telegramResp', [NetCall url; logged])
      else (inr telegramResp, [NetCall url])
  end.

Definition sendMessageOnce (t : TelegramAPI) (w : World) (attempt : Z)
  : (GoError + MessageResult) * gobreaker.CircuitBreaker * list Event :=
  (* Rate limit check *)
  match w.(limiterWait) attempt with
  | Some err =>
      (inl (fmt.Errorf_w "rate limit exceeded: " err), t.(breaker), [])
  | None =>
      (* Use circuit breaker *)
      let '(resp, cb, evs) :=
        gobreaker.Execute t.(breaker)
          (fst (w.(clock) attempt)) (snd (w.(clock) attempt))
          (fun _ => executeRequest t (w.(roundTrip) attempt) "sendMessage") in
      match resp with
      | inl err => (inl err, cb, evs)
      | inr telegramResp =>
          if negb telegramResp.(OK) then
            (inl (errorString
                    ("telegram API error: "
                     ++ strconv.Itoa telegramResp.(ErrorCode) ++ " "
                     ++ telegramResp.(Description))), cb, evs)
          else
            match w.(unmarshalResult) telegramResp.(Result) with
            | inl err =>
                (inl (fmt.Errorf_w "failed to parse result: " err), cb, evs)
            | inr msgResult => (inr msgResult, cb, evs)
            end
      end
  end.

Definition calculateBackoff (t : TelegramAPI) (attempt : Z) : Z :=
  let backoff :=
    wrap64 (t.(config).(RetryInitialBackoff)
            * float64_to_int64
                (math.Pow t.(config).(RetryBackoffFactor) (attempt - 1))) in
  let backoff :=
    if backoff >? t.(config).(RetryMaxBackoff)
    then t.(config).(RetryMaxBackoff) else backoff in
  (* Add jitter (+-20%) *)
  let jitter :=
    float64_to_int64
      (int_to_float64 backoff
       * ((8 # 10) + (4 # 10) * int_to_float64 (Z.rem attempt 2)))%Q in
  jitter.

Definition extractTelegramError (err : GoError) : option TelegramResponse :=
  (* Check if the error message contains Telegram error information *)
  let errMsg := Error err in
  if strings.Contains errMsg "telegram API error" then
    (* This is a best-effort extraction from our formatted error message *)
    if strings.Contains errMsg "403" then
      Some {| OK := false; Result := ""; ErrorCode := 403;
              Description := "Forbidden"; RetryAfter := 0 |}
    else if strings.Contains errMsg "429" then
      Some {| OK := false; Result := ""; ErrorCode := 429;
              Description := "Too Many Requests"; RetryAfter := 0 |}
    else if strings.Contains errMsg "500" || strings.Contains errMsg "502"
            || strings.Contains errMsg "503" || strings.Contains errMsg "504"
    then
      Some {| OK := false; Result := ""; ErrorCode := 500;
              Description := "Server Error"; RetryAfter := 0 |}
    else None
  else None.

(** The receiver [t] of [isRetryable] is not used by its body. *)
Definition isRetryable (err : GoError) : bool :=
  if match errors.As_netError err with
     | Some netErr =>
         match Timeout netErr with Some b => b | None => false end
     | None => false
     end
  then true
  else if errors.Is err DeadlineExceeded || errors.Is err Canceled then false
  else
    (* Handle specific Telegram error codes that are retryable
       429 - Too Many Requests
       500, 502, 503, 504 - Server errors *)
    match extractTelegramError err with
    | Some telegramErr =>
        let code := telegramErr.(ErrorCode) in
        (code =? 429) || ((code >=? 500) && (code <=? 504))
    | None => false
    end.

(** ** The client: SendMessage *)

(** What [errors.As(err, target)] can do: panic on an ill-typed target,
    find a match in the chain of [err], or find none. *)
Inductive AsResult (A : Type) : Type :=
| AsPanics (msg : string)
| AsFound (a : A)
| AsNotFound.

Arguments AsPanics {A} msg.
Arguments AsFound {A} a.
Arguments AsNotFound {A}.

(** [errors.As(err, &telegramErr)] with [var telegramErr *TelegramResponse].
    The package declares no method [Error] on [TelegramResponse], so the
    target points neither to an interface nor to a type implementing
    [error].  For a non-nil [err], [errors.As] checks its target before it
    looks at the chain and panics on such a target. *)
Definition As_TelegramResponse (err : GoError) : AsResult TelegramResponse :=
  AsPanics "errors: *target must be interface or implement error".

Inductive Outcome : Type :=
| Returned (r : GoError + MessageResult)
| Panicked (msg : string).

Section SendMessage.

(** The lookup of a [*TelegramResponse] in an error chain, as the loop
    uses it. *)
Variable errors_As : GoError -> AsResult TelegramResponse.

Variable w : World.

(** The body of [for attempt := 0; attempt <= t.config.MaxRetries; attempt++];
    [err] is the error of the previous iteration, [fuel] bounds the
    iterations left. *)
Fixpoint retryLoop (fuel : nat) (t : TelegramAPI) (attempt : Z)
  (err : option GoError) : Outcome * TelegramAPI * list Event :=
  let exhausted :=
    (* If we've exhausted all retries, return the last error *)
    (Returned (inl match err with
                   | Some e => fmt.Errorf_w "max retries exceeded: " e
                   | None => errorString "max retries exceeded: %!w(<nil>)"
                   end), t, []) in
  match fuel with
  | O => exhausted
  | S fuel' =>
      if negb (attempt <=? t.(config).(MaxRetries)) then exhausted
      else
        (* Main request (first attempt or after backoff) *)
        let '(r, cb, evs) := sendMessageOnce t w attempt in
        let t1 := with_breaker t cb in
        match r with
        | inr result => (Returned (inr result), t1, evs)
        | inl err =>
            (* Exit early if this is the last attempt *)
            if attempt =? t.(config).(MaxRetries) then
              (Returned (inl (fmt.Errorf_w "max retries exceeded: " err)),
               t1, evs)
            (* Check if the error is retryable *)
            else if negb (isRetryable err) then
              (Returned (inl err), t1,
               (evs ++ [Log "ERROR" "non-retryable error"
                          [("error", VError err);
                           ("attempt", VInt attempt)]])%list)
            else
              (* Check for rate limit response with Retry-After header *)
              match errors_As err with
              | AsPanics msg => (Panicked msg, t1, evs)
              | found =>
                  let '(serverRetryDelay, evs2) :=
                    match found with
                    | AsFound telegramErr =>
                        if telegramErr.(RetryAfter) >? 0 then
                          (telegramErr.(RetryAfter),
                           [Log "WARN" "received rate limit response"
                              [("retry_after",
                                VDuration telegramErr.(RetryAfter));
                               ("attempt", VInt attempt)]])
                        else (0, [])
                    | _ => (0, [])
                    end in
                  (* Determine backoff time for next attempt *)
                  let backoff :=
                    if serverRetryDelay >? 0 then serverRetryDelay
                    else calculateBackoff t1 (attempt + 1) in
                  let evs3 :=
                    [Log "INFO" "retrying request"
                       [("attempt", VInt (attempt + 1));
                        ("backoff", VDuration backoff);
                        ("using_server_delay",
                         VBool (serverRetryDelay >? 0))]] in
                  (* Wait for backoff period or context cancellation *)
                  match w.(ctxDone) attempt with
                  | Some ctxErr =>
                      (Returned (inl ctxErr), t1, (evs ++ evs2 ++ evs3)%list)
                  | None =>
                      let '(o, t2, rest) :=
                        retryLoop fuel' t1 (attempt + 1) (Some err) in
                      (o, t2,
                       (evs ++ evs2 ++ evs3 ++ Slept backoff :: rest)%list)
                  end
              end
        end
  end.

(** SendMessage sends a text message to the specified chat. *)
Definition SendMessage_with (t : TelegramAPI)
  : Outcome * TelegramAPI * list Event :=
  match ValidateConfig t.(config) with
  | Some err =>
      (Returned (inl (fmt.Errorf_w "config validation failed: " err)), t, [])
  | None =>
      retryLoop (S (Z.to_nat t.(config).(MaxRetries))) t 0 None
  end.

End SendMessage.

Definition SendMessage (w : World) (t : TelegramAPI)
  : Outcome * TelegramAPI * list Event :=
  SendMessage_with As_TelegramResponse w t.

(** The same loop with a lookup that finds nothing instead of panicking:
    no error built by this package holds a [*TelegramResponse]. *)
Definition As_nothing (err : GoError) : AsResult TelegramResponse :=
  AsNotFound.

(** ** Reading a trace *)

Definition is_NetCall (e : Event) : bool :=
  match e with NetCall _ => true | _ => false end.

Definition netCalls (tr : list Event) : nat :=
  List.length (List.filter is_NetCall tr).

Definition waits (tr : list Event) : list Z :=
  List.flat_map (fun e => match e with Slept d => [d] | _ => [] end) tr.

Definition Value_mentions (secret : string) (v : Value) : bool :=
  match v with
  | VString s => strings.Contains s secret
  | VError e => strings.Contains (Error e) secret
  | VInt i => strings.Contains (strconv.Itoa i) secret
  | VBool _ | VDuration _ => false
  end.

(** Does a log record carry [secret] in its message or in a field? *)
Definition Event_mentions (secret : string) (e : Event) : bool :=
  match e with
  | Log _ msg attrs =>
      strings.Contains msg secret
      || List.existsb (fun kv => Value_mentions secret (snd kv)) attrs
  | _ => false
  end.

Definition Outcome_error (o : Outcome) : option GoError :=
  match o with
  | Returned (inl e) => Some e
  | _ => None
  end.

(** ** The configuration invariant in the specification's words

    "All durations and rates must be positive; retry count must be
    non-negative; absence of required fields is a fatal configuration
    error."  [spec_config_defect] holds of a configuration that breaks it. *)

Definition spec_config_defect (cfg : Config) : bool :=
  (cfg.(RequestTimeout) <=? 0) || (cfg.(KeepAlive) <=? 0)
  || (cfg.(IdleConnTimeout) <=? 0)
  || Qle_bool cfg.(RateLimitRequests) 0 || (cfg.(RateLimitBurst) <=? 0)
  || (cfg.(BreakerInterval) <=? 0) || (cfg.(BreakerTimeout) <=? 0)
  || (cfg.(BreakerMaxRequests) <=? 0)
  || (cfg.(RetryInitialBackoff) <=? 0) || (cfg.(RetryMaxBackoff) <=? 0)
  || Qle_bool cfg.(RetryBackoffFactor) 0
  || (cfg.(MaxRetries) <? 0)
  || is_empty cfg.(BotToken) || is_empty cfg.(LogFilePath)
  || is_empty cfg.(BaseURL).

(** The defaults with the keep-alive switched off. *)
Definition configKeepAliveZero : Config := {|
  BotToken := sampleToken;
  BaseURL := "https://api.telegram.org";
  RequestTimeout := 10 * Second;
  KeepAlive := 0;
  MaxIdleConns := 10;
  IdleConnTimeout := 90 * Second;
  RateLimitRequests := 10;
  RateLimitBurst := 20;
  BreakerMaxRequests := 5;
  BreakerInterval := 120 * Second;
  BreakerTimeout := 60 * Second;
  MaxRetries := 3;
  RetryInitialBackoff := 100 * Millisecond;
  RetryMaxBackoff := 10 * Second;
  RetryBackoffFactor := 2;
  LogFilePath := "logs/telegramsender.log"
|}.

(** ** The backoff bounds in the specification's words

    "For all attempt numbers n>=1, the output is <= the configured ceiling
    and >= 0.8 x the uncapped exponential value." *)

Definition spec_uncapped (cfg : Config) (n : Z) : Q :=
  (inject_Z cfg.(RetryInitialBackoff) * cfg.(RetryBackoffFactor) ^ (n - 1))%Q.

Definition spec_backoff_upper (t : TelegramAPI) (n : Z) : Prop :=
  calculateBackoff t n <= t.(config).(RetryMaxBackoff).

Definition spec_backoff_lower (t : TelegramAPI) (n : Z) : Prop :=
  ((8 # 10) * spec_uncapped t.(config) n
   <= inject_Z (calculateBackoff t n))%Q.

(** A client built from the defaults at time 0. *)
Definition defaultAPI : TelegramAPI := NewTelegramAPI defaultConfig 0.

(** The value of [backoff] in [calculateBackoff] when the jitter line is
    reached: the exponential base after the cap. *)
Definition cappedBackoff (t : TelegramAPI) (attempt : Z) : Z :=
  let backoff :=
    wrap64 (t.(config).(RetryInitialBackoff)
            * float64_to_int64
                (math.Pow t.(config).(RetryBackoffFactor) (attempt - 1))) in
  if backoff >? t.(config).(RetryMaxBackoff)
  then t.(config).(RetryMaxBackoff) else backoff.

(** ** Scenarios *)

(** A world in which every attempt meets the same limiter answer and the
    same round trip, the context is never done, and the clock reads
    [now] throughout. *)
Definition steadyWorld (now : Z) (lim : option GoError) (rt : RoundTrip)
  : World :=
  {| limiterWait := fun _ => lim;
     clock := fun _ => (now, now);
     roundTrip := fun _ => rt;
     unmarshalResult := fun _ => inr {| MessageID := 1 |};
     ctxDone := fun _ => None |}.

(** The remote answers the envelope [ok=false, error_code, description]. *)
Definition apiFailure (code : Z) (retryAfterHeader desc : string) : RoundTrip :=
  Responds code retryAfterHeader
    {| ok := false; result := ""; error_code := code; description := desc |}.

Definition apiSuccess : RoundTrip :=
  Responds 200 ""
    {| ok := true; result := "{}"; error_code := 0; description := "" |}.

(** The connection is refused: [Do] fails with a [*net.OpError] that is not
    a timeout. *)
Definition connectionRefused : RoundTrip :=
  DoFails (opError "dial tcp 149.154.167.220:443: connect: connection refused"
             false).

(** The client after [n] calls of SendMessage in the world [w]. *)
Fixpoint afterSends (n : nat) (w : World) (t : TelegramAPI) : TelegramAPI :=
  match n with
  | O => t
  | S n' => afterSends n' w (snd (fst (SendMessage w t)))
  end.

(** Six sends against a refused connection: the breaker has tripped. *)
Definition trippedAPI : TelegramAPI :=
  afterSends 6 (steadyWorld Second None connectionRefused) defaultAPI.

(** The failure count of a breaker's current window. *)
Definition failureCount (cb : gobreaker.CircuitBreaker) : Z :=
  cb.(gobreaker.counts).(gobreaker.TotalFailures).

Definition is_response (rt : RoundTrip) : bool :=
  match rt with Responds _ _ _ => true | _ => false end.

(** The caller cancels the context during the wait that follows the first
    attempt, which was answered with error code 503. *)
Definition cancelledWhileWaiting : World :=
  {| limiterWait := fun _ => None;
     clock := fun _ => (0, 0);
     roundTrip := fun _ => apiFailure 503 "" "Service Unavailable";
     unmarshalResult := fun _ => inr {| MessageID := 1 |};
     ctxDone := fun attempt => if attempt =? 0 then Some Canceled else None |}.

(** Every attempt is answered 429 with the header [Retry-After: 5]. *)
Definition throttled : World :=
  steadyWorld 0 None (apiFailure 429 "5" "Too Many Requests: retry after 5").

(** The error [sendMessageOnce] builds from a non-OK envelope. *)
Definition apiError (code : Z) (desc : string) : GoError :=
  errorString ("telegram API error: " ++ strconv.Itoa code ++ " " ++ desc).

Fixpoint digit_free (s : string) : bool :=
  match s with
  | EmptyString => true
  | String c rest => negb (strconv.isDigit c) && digit_free rest
  end.

Fixpoint all_digits (s : string) : bool :=
  match s with
  | EmptyString => true
  | String c rest => strconv.isDigit c && all_digits rest
  end.


(** ** Further vocabulary for the properties below *)

(** Does the byte [c] occur in [s]? *)
Fixpoint has_byte (c : ascii) (s : string) : bool :=
  match s with
  | EmptyString => false
  | String d rest => Ascii.eqb d c || has_byte c rest
  end.

(** The settings a breaker is built with; its state, generation, counts and
    expiry are the part that moves. *)
Definition same_settings (a b : gobreaker.CircuitBreaker) : Prop :=
  a.(gobreaker.name) = b.(gobreaker.name)
  /\ a.(gobreaker.maxRequests) = b.(gobreaker.maxRequests)
  /\ a.(gobreaker.interval) = b.(gobreaker.interval)
  /\ a.(gobreaker.timeout) = b.(gobreaker.timeout)
  /\ a.(gobreaker.readyToTrip) = b.(gobreaker.readyToTrip)
  /\ a.(gobreaker.onStateChange) = b.(gobreaker.onStateChange).

(** A client whose breaker reports its transitions through the callback
    installed by [NewTelegramAPI]. *)
Definition logs_transitions (t : TelegramAPI) : Prop :=
  t.(breaker).(gobreaker.onStateChange) = logStateChange.

Definition is_Log (e : Event) : bool :=
  match e with Log _ _ _ => true | _ => false end.

(** The nine messages of [ValidateConfig]. *)
Definition validationMessages : list string :=
  ["BOT_TOKEN must be set"; "BOT_TOKEN format is invalid";
   "LOG_FILE_PATH must be set"; "BASE_URL must be set";
   "REQUEST_TIMEOUT must be positive";
   "RETRY_INITIAL_BACKOFF must be positive";
   "RETRY_MAX_BACKOFF must be positive";
   "RETRY_BACKOFF_FACTOR must be positive";
   "MAX_RETRIES must be non-negative"].

(** What the digit loop makes of the digits of [n] in front of any rest. *)
Definition reads_as (ds : string) (n : Z) : Prop :=
  forall (m : Z) (rest : string),
    0 <= m ->
    m * 10 ^ Z.of_nat (String.length ds) + n < 2 ^ 64 ->
    strconv.parseUintLoop (ds ++ rest) m
    = strconv.parseUintLoop rest (m * 10 ^ Z.of_nat (String.length ds) + n).

(** The URL [executeRequest] posts to. *)
Definition requestURL (t : TelegramAPI) (method : string) : string :=
  t.(config).(BaseURL) ++ "/bot" ++ t.(config).(BotToken) ++ "/" ++ method.

(** Did the round trip break off before a request could be sent? *)
Definition fails_before_sending (rt : RoundTrip) : bool :=
  match rt with
  | MarshalFails _ | NewRequestFails _ => true
  | _ => false
  end.

(** Did the remote answer an envelope that reports a failure? *)
Definition answers_not_ok (rt : RoundTrip) : bool :=
  match rt with
  | Responds _ _ body => negb body.(ok)
  | _ => false
  end.

(** The defaults with another retry count and another multiplier. *)
Definition configWith (maxRetries : Z) (factor : Q) : Config := {|
  BotToken := sampleToken;
  BaseURL := "https://api.telegram.org";
  RequestTimeout := 10 * Second;
  KeepAlive := 30 * Second;
  MaxIdleConns := 10;
  IdleConnTimeout := 90 * Second;
  RateLimitRequests := 10;
  RateLimitBurst := 20;
  BreakerMaxRequests := 5;
  BreakerInterval := 120 * Second;
  BreakerTimeout := 60 * Second;
  MaxRetries := maxRetries;
  RetryInitialBackoff := 100 * Millisecond;
  RetryMaxBackoff := 10 * Second;
  RetryBackoffFactor := factor;
  LogFilePath := "logs/telegramsender.log"
|}.

Definition clientWith (maxRetries : Z) (factor : Q) : TelegramAPI :=
  NewTelegramAPI (configWith maxRetries factor) 0.

(** The record SendMessage logs before it returns a failure it will not
    retry. *)
Definition nonRetryableRecord (err : GoError) (attempt : Z) : Event :=
  Log "ERROR" "non-retryable error"
    [("error", VError err); ("attempt", VInt attempt)].

(** A trace without its log records: the network calls and the waits. *)
Definition strip_logs (tr : list Event) : list Event :=
  List.filter (fun e => negb (is_Log e)) tr.

(** Is the counting window of a closed breaker still running at [now]? *)
Definition window_open (cb : gobreaker.CircuitBreaker) (now : Z) : Prop :=
  match cb.(gobreaker.expiry) with
  | None => True
  | Some e => now <= e
  end.
(** * Properties *)

(** ** Sanity checks of the library models *)

Example ValidateConfig_defaults : ValidateConfig defaultConfig = None.
Proof. reflexivity. Qed.

Example Itoa_examples :
  strconv.Itoa 0 = "0" /\ strconv.Itoa 429 = "429" /\ strconv.Itoa (-17) = "-17"
  /\ strconv.Itoa 1000 = "1000" /\ strconv.Itoa 9 = "9" /\ strconv.Itoa 10 = "10".
Proof. repeat split; reflexivity. Qed.

Example ParseInt_examples :
  strconv.ParseInt "123456789" = inr 123456789
  /\ strconv.ParseInt "-5" = inr (-5)
  /\ strconv.ParseInt "+" = inl strconv.ErrSyntax
  /\ strconv.ParseInt "12a" = inl strconv.ErrSyntax
  /\ strconv.ParseInt "9223372036854775808" = inl strconv.ErrRange
  /\ strconv.ParseInt "-9223372036854775808" = inr (- 2 ^ 63).
Proof. repeat split; reflexivity. Qed.

Example Split_examples :
  strings.Split "a:b" ":"%char = ["a"; "b"]
  /\ strings.Split "" ":"%char = [""]
  /\ strings.Split "a::" ":"%char = ["a"; ""; ""].
Proof. repeat split; reflexivity. Qed.

Example validateBotToken_examples :
  validateBotToken sampleToken = true
  /\ validateBotToken "123:short" = false
  /\ validateBotToken "abc:ABCDefGhIJKlmNoPQRsTUVwxyZ0123456789" = false
  /\ validateBotToken "12:ABCDefGhIJKlmNoPQRs:UVwxyZ0123456789abcd" = false.
Proof. repeat split; reflexivity. Qed.

(** ** Substring search *)

Lemma HasPrefix_app (p s : string) : strings.HasPrefix (p ++ s) p = true.
Proof.
  unfold strings.HasPrefix. induction p as [|c p IH]; simpl.
  - destruct s; reflexivity.
  - destruct (ascii_dec c c) as [_|Hne]; [exact IH | congruence].
Qed.

Lemma Contains_app_l (a s x : string) :
  strings.Contains s x = true -> strings.Contains (a ++ s) x = true.
Proof.
  intro H. induction a as [|c a IH]; simpl.
  - exact H.
  - rewrite IH. apply orb_true_r.
Qed.

Lemma Contains_middle (a x b : string) :
  strings.Contains (a ++ x ++ b) x = true.
Proof.
  apply Contains_app_l.
  pose proof (HasPrefix_app x b) as H.
  destruct (x ++ b); cbn [strings.Contains]; rewrite H; reflexivity.
Qed.

Lemma HasPrefix_app_r (s x b : string) :
  strings.HasPrefix s x = true -> strings.HasPrefix (s ++ b) x = true.
Proof.
  unfold strings.HasPrefix. revert s.
  induction x as [|c x IH]; intros s H.
  - destruct (s ++ b); reflexivity.
  - destruct s as [|d s]; simpl in *; [discriminate|].
    destruct (ascii_dec c d); [apply IH; exact H | discriminate].
Qed.

Lemma Contains_app_r (s x b : string) :
  strings.Contains s x = true -> strings.Contains (s ++ b) x = true.
Proof.
  induction s as [|c s IH]; intro H.
  - cbn [strings.Contains] in H. rewrite orb_false_r in H.
    destruct x; [|discriminate].
    destruct ("" ++ b); reflexivity.
  - cbn [strings.Contains] in H. apply orb_true_iff in H.
    change (String c s ++ b) with (String c (s ++ b)).
    cbn [strings.Contains]. apply orb_true_iff.
    destruct H as [H|H].
    + left. apply (HasPrefix_app_r (String c s) x b H).
    + right. apply IH. exact H.
Qed.

(** ** ValidateConfig *)

Lemma is_empty_false (s : string) : is_empty s = false <-> s <> "".
Proof.
  destruct s; simpl; split; intro H; congruence.
Qed.

Lemma Qle_bool_false (q : Q) : Qle_bool q 0 = false <-> (0 < q)%Q.
Proof.
  split; intro H.
  - apply Qnot_le_lt. intro Hle. apply Qle_bool_iff in Hle. congruence.
  - destruct (Qle_bool q 0) eqn:E; [|reflexivity].
    apply Qle_bool_iff in E. exfalso. eapply Qlt_not_le; eassumption.
Qed.



(** ** calculateBackoff *)

Example calculateBackoff_defaults :
  map (calculateBackoff defaultAPI) [1; 2; 3; 4; 8; 9; 10]
  = [120 * Millisecond; 160 * Millisecond; 480 * Millisecond;
     640 * Millisecond; 8 * Second; 12 * Second; 8 * Second].
Proof. vm_compute. reflexivity. Qed.

Lemma wrap64_small (z : Z) : - 2 ^ 63 <= z < 2 ^ 63 -> wrap64 z = z.
Proof.
  intro H. unfold wrap64. rewrite Z.mod_small; lia.
Qed.

Lemma float64_to_int64_whole (q : Q) (k : Z) :
  (q == inject_Z k)%Q -> 0 <= k < 2 ^ 63 -> float64_to_int64 q = k.
Proof.
  intros Hq Hk. unfold float64_to_int64. destruct q as [a d].
  assert (Hn : 0 <= Qnum (a # d)).
  { assert (H0 : (0 <= a # d)%Q) by (rewrite Hq; unfold Qle; simpl; lia).
    unfold Qle in H0. cbn [Qnum Qden] in *. lia. }
  cbn [Qnum Qden] in *.
  rewrite Z.quot_div_nonneg by lia.
  change (a / Z.pos d) with (Qfloor (a # d)).
  assert (Hfl : Qfloor (a # d) = k) by (rewrite Hq; apply Qfloor_Z).
  rewrite Hfl.
  unfold in_int64.
  replace (- 2 ^ 63 <=? k) with true by (symmetry; apply Z.leb_le; lia).
  replace (k <? 2 ^ 63) with true by (symmetry; apply Z.ltb_lt; lia).
  reflexivity.
Qed.

Lemma quot_scaled (x c : Z) :
  0 <= x -> 0 < c -> Z.quot (x * 10) (c * 10) = x / c.
Proof.
  intros Hx Hc. rewrite Z.quot_div_nonneg by lia.
  apply Z.div_mul_cancel_r; lia.
Qed.

Lemma in_int64_true (z : Z) : - 2 ^ 63 <= z < 2 ^ 63 -> in_int64 z = true.
Proof.
  intro H. unfold in_int64. apply andb_true_iff.
  split; [apply Z.leb_le | apply Z.ltb_lt]; lia.
Qed.

(** The jitter line on a non-negative capped value: the factor is 8/10 on
    even attempts and 12/10 on odd ones, the product is cut to whole
    nanoseconds. *)
Lemma jitter_value (b n : Z) :
  0 <= b <= 2 ^ 62 -> 0 <= n ->
  float64_to_int64
    (int_to_float64 b * ((8 # 10) + (4 # 10) * int_to_float64 (Z.rem n 2)))%Q
  = b * (if Z.even n then 8 else 12) / 10.
Proof.
  intros Hb Hn.
  assert (Hrem : Z.rem n 2 = if Z.even n then 0 else 1).
  { rewrite Z.rem_mod_nonneg by lia.
    rewrite Zmod_even. reflexivity. }
  rewrite Hrem.
  unfold float64_to_int64, int_to_float64.
  destruct (Z.even n).
  - change ((8 # 10) + (4 # 10) * inject_Z 0)%Q with (80 # 100)%Q.
    cbn [Qnum Qden Qmult inject_Z].
    change (Z.pos (1 * 100)) with (10 * 10).
    replace (b * 80) with (b * 8 * 10) by ring.
    rewrite quot_scaled by lia.
    rewrite in_int64_true; [reflexivity|].
    assert (0 <= b * 8 / 10) by (apply Z.div_pos; lia).
    assert (b * 8 / 10 < 2 ^ 63) by (apply Z.div_lt_upper_bound; lia).
    lia.
  - change ((8 # 10) + (4 # 10) * inject_Z 1)%Q with (120 # 100)%Q.
    cbn [Qnum Qden Qmult inject_Z].
    change (Z.pos (1 * 100)) with (10 * 10).
    replace (b * 120) with (b * 12 * 10) by ring.
    rewrite quot_scaled by lia.
    rewrite in_int64_true; [reflexivity|].
    assert (0 <= b * 12 / 10) by (apply Z.div_pos; lia).
    assert (b * 12 / 10 < 2 ^ 63) by (apply Z.div_lt_upper_bound; lia).
    lia.
Qed.

Lemma calculateBackoff_unfold (t : TelegramAPI) (n : Z) :
  calculateBackoff t n
  = float64_to_int64
      (int_to_float64 (cappedBackoff t n)
       * ((8 # 10) + (4 # 10) * int_to_float64 (Z.rem n 2)))%Q.
Proof. reflexivity. Qed.

Lemma cappedBackoff_le (t : TelegramAPI) (n : Z) :
  cappedBackoff t n <= t.(config).(RetryMaxBackoff).
Proof.
  unfold cappedBackoff.
  match goal with |- context [?a >? ?b] => destruct (Z.gtb_spec a b) end; lia.
Qed.

(** Whatever the settings, the jittered value stays within 1.2 times a
    non-negative ceiling. *)
Lemma calculateBackoff_upper (t : TelegramAPI) (n : Z) :
  0 <= t.(config).(RetryMaxBackoff) ->
  10 * calculateBackoff t n <= 12 * t.(config).(RetryMaxBackoff).
Proof.
  intro Hmax. rewrite calculateBackoff_unfold.
  pose proof (cappedBackoff_le t n) as Hb.
  set (b := cappedBackoff t n) in *.
  assert (Hr : Z.rem n 2 = -1 \/ Z.rem n 2 = 0 \/ Z.rem n 2 = 1).
  { pose proof (Z.rem_bound_abs n 2 ltac:(lia)). lia. }
  unfold float64_to_int64, int_to_float64.
  destruct Hr as [Hr|[Hr|Hr]]; rewrite Hr.
  - change ((8 # 10) + (4 # 10) * inject_Z (-1))%Q with (40 # 100)%Q.
    cbn [Qnum Qden Qmult inject_Z].
    change (Z.pos (1 * 100)) with 100.
    destruct (in_int64 _); [|lia].
    Z.to_euclidean_division_equations; nia.
  - change ((8 # 10) + (4 # 10) * inject_Z 0)%Q with (80 # 100)%Q.
    cbn [Qnum Qden Qmult inject_Z].
    change (Z.pos (1 * 100)) with 100.
    destruct (in_int64 _); [|lia].
    Z.to_euclidean_division_equations; nia.
  - change ((8 # 10) + (4 # 10) * inject_Z 1)%Q with (120 # 100)%Q.
    cbn [Qnum Qden Qmult inject_Z].
    change (Z.pos (1 * 100)) with 100.
    destruct (in_int64 _); [|lia].
    Z.to_euclidean_division_equations; nia.
Qed.




(** A multiplier that is not whole is cut to a whole number before it
    scales the initial delay: with multiplier 3/2 the second wait is
    0.8 x 100 ms, not 0.8 x 150 ms. *)
Example calculateBackoff_truncates_multiplier :
  calculateBackoff
    {| config :=
         {| BotToken := sampleToken; BaseURL := "https://api.telegram.org";
            RequestTimeout := 10 * Second; KeepAlive := 30 * Second;
            MaxIdleConns := 10; IdleConnTimeout := 90 * Second;
            RateLimitRequests := 10; RateLimitBurst := 20;
            BreakerMaxRequests := 5; BreakerInterval := 120 * Second;
            BreakerTimeout := 60 * Second; MaxRetries := 3;
            RetryInitialBackoff := 100 * Millisecond;
            RetryMaxBackoff := 10 * Second;
            RetryBackoffFactor := 3 # 2;
            LogFilePath := "logs/telegramsender.log" |};
       breaker := defaultAPI.(breaker) |} 2
  = 80 * Millisecond.
Proof. vm_compute. reflexivity. Qed.


(** C10: calculateBackoff reads nothing but the three retry settings and
    the attempt number.  Two clients that agree on these settings, whatever
    their breakers have seen, get the same wait for the same attempt; and
    the factor applied to the capped base is fixed by the parity of the
    attempt number, 0.8 when even and 1.2 when odd. *)
Theorem calculateBackoff_deterministic (t1 t2 : TelegramAPI) (n : Z) :
  0 <= n ->
  t1.(config).(RetryInitialBackoff) = t2.(config).(RetryInitialBackoff) ->
  t1.(config).(RetryMaxBackoff) = t2.(config).(RetryMaxBackoff) ->
  t1.(config).(RetryBackoffFactor) = t2.(config).(RetryBackoffFactor) ->
  calculateBackoff t1 n = calculateBackoff t2 n
  /\ exists jitter : Q,
       (jitter == if Z.even n then 8 # 10 else 12 # 10)%Q
       /\ calculateBackoff t1 n
          = float64_to_int64 (int_to_float64 (cappedBackoff t1 n) * jitter)%Q.
Proof.
  intros Hn Hi Hm Hf. split.
  - unfold calculateBackoff. rewrite Hi, Hm, Hf. reflexivity.
  - exists ((8 # 10) + (4 # 10) * int_to_float64 (Z.rem n 2))%Q. split.
    + rewrite Z.rem_mod_nonneg by lia. rewrite Zmod_even.
      destruct (Z.even n); reflexivity.
    + apply calculateBackoff_unfold.
Qed.

Lemma calculateBackoff_deterministic_witness :
  calculateBackoff defaultAPI 3
  = calculateBackoff (NewTelegramAPI configKeepAliveZero 5) 3
  /\ exists jitter : Q,
       (jitter == if Z.even 3 then 8 # 10 else 12 # 10)%Q
       /\ calculateBackoff defaultAPI 3
          = float64_to_int64
              (int_to_float64 (cappedBackoff defaultAPI 3) * jitter)%Q.
Proof.
  apply (calculateBackoff_deterministic
           defaultAPI (NewTelegramAPI configKeepAliveZero 5) 3).
  - lia.
  - reflexivity.
  - reflexivity.
  - reflexivity.
Defined.

(** ** isRetryable *)

Example isRetryable_examples :
  isRetryable (opError "i/o timeout" true) = true
  /\ isRetryable (opError "connection reset by peer" false) = false
  /\ isRetryable (errorString "telegram API error: 503 Service Unavailable") = true
  /\ isRetryable (errorString "telegram API error: 429 Too Many Requests") = true
  /\ isRetryable (errorString "telegram API error: 401 Unauthorized") = false
  /\ isRetryable (errorString "telegram API error: 403 Forbidden") = false
  /\ isRetryable (errorString "unexpected end of JSON input") = false.
Proof. repeat split; reflexivity. Qed.

(** X26: cancellation itself is classified as terminal. *)
Lemma isRetryable_Canceled (prefix url : string) :
  isRetryable Canceled = false
  /\ isRetryable (fmt.Errorf_w prefix Canceled) = false
  /\ isRetryable (fmt.Errorf_w prefix (urlError "Post" url Canceled)) = false.
Proof. repeat split; reflexivity. Qed.

(** C3, at the failing input: [context.DeadlineExceeded] has a method
    [Timeout] that answers true, so the [net.Error] test, which comes first,
    classifies an expired deadline as retryable, bare or wrapped by the
    limiter or by the HTTP client; the test for the context errors below it
    is never reached.  SendMessage then goes on to its retry branch
    instead of returning the error. *)
Theorem isRetryable_DeadlineExceeded_true (prefix url : string) :
  errors.Is DeadlineExceeded DeadlineExceeded = true
  /\ isRetryable DeadlineExceeded = true
  /\ isRetryable (fmt.Errorf_w prefix DeadlineExceeded) = true
  /\ isRetryable (fmt.Errorf_w prefix (urlError "Post" url DeadlineExceeded))
     = true
  /\ fst (fst (SendMessage (steadyWorld 0 (Some DeadlineExceeded) apiSuccess)
                 defaultAPI))
     <> Returned (inl (fmt.Errorf_w "rate limit exceeded: " DeadlineExceeded)).
Proof.
  repeat split; try reflexivity.
  vm_compute. discriminate.
Qed.

(** Enter the first iteration of the loop of a validated client that has
    retries configured. *)
Ltac first_iteration Hcfg :=
  rewrite Hcfg; cbn [retryLoop];
  match goal with
  | |- context [0 <=? ?m] =>
      replace (0 <=? m) with true by (symmetry; apply Z.leb_le; lia)
  end;
  match goal with
  | |- context [0 =? ?m] =>
      replace (0 =? m) with false by (symmetry; apply Z.eqb_neq; lia)
  end.

(** ** The open breaker *)

Example trippedAPI_is_open :
  trippedAPI.(breaker).(gobreaker.state) = gobreaker.StateOpen
  /\ trippedAPI.(breaker).(gobreaker.expiry) = Some (61 * Second).
Proof. vm_compute. split; reflexivity. Qed.

(** C6 fails as stated: once six refused connections have tripped the
    breaker, the next attempt is rejected with [ErrOpenState] without a
    network call, and isRetryable answers false for that error. *)
Lemma circuit_open_not_retryable :
  let w := steadyWorld (2 * Second) None apiSuccess in
  fst (fst (sendMessageOnce trippedAPI w 0)) = inl ErrOpenState
  /\ netCalls (snd (sendMessageOnce trippedAPI w 0)) = 0%nat
  /\ isRetryable ErrOpenState = false.
Proof. vm_compute. repeat split; reflexivity. Qed.

Lemma currentState_Open (cb : gobreaker.CircuitBreaker) (now : Z) :
  gobreaker.state (fst (gobreaker.currentState cb now)) = gobreaker.StateOpen ->
  gobreaker.currentState cb now = (cb, []).
Proof.
  unfold gobreaker.currentState, gobreaker.setState.
  destruct (gobreaker.state cb) eqn:Est.
  - destruct (gobreaker.expiry cb) as [e|]; [destruct (e <? now)|];
      simpl; try rewrite Est; intro H; try discriminate; reflexivity.
  - intros _. reflexivity.
  - destruct (gobreaker.expiry cb) as [e|]; [destruct (e <? now)|];
      simpl; intro H; try discriminate; reflexivity.
Qed.

(** C6, as the code has it: when the breaker is open and rejects an attempt
    without a network call, the circuit-open failure is classified as not
    retryable (isRetryable returns false for it); while attempts remain,
    SendMessage returns it to the caller at once, with no network call, no
    wait and no further attempt. *)
Theorem circuit_open_is_terminal (w : World) (t : TelegramAPI) :
  ValidateConfig t.(config) = None ->
  0 < t.(config).(MaxRetries) ->
  w.(limiterWait) 0 = None ->
  gobreaker.state
    (fst (gobreaker.currentState t.(breaker) (fst (w.(clock) 0))))
  = gobreaker.StateOpen ->
  isRetryable ErrOpenState = false
  /\ fst (fst (SendMessage w t)) = Returned (inl ErrOpenState)
  /\ netCalls (snd (SendMessage w t)) = 0%nat
  /\ waits (snd (SendMessage w t)) = [].
Proof.
  intros Hcfg Hmax Hlim Hopen.
  split; [reflexivity|].
  pose proof (currentState_Open _ _ Hopen) as Hcur.
  assert (Hst : gobreaker.state (breaker t) = gobreaker.StateOpen)
    by (rewrite Hcur in Hopen; exact Hopen).
  unfold SendMessage, SendMessage_with. first_iteration Hcfg.
  unfold sendMessageOnce. rewrite Hlim.
  unfold gobreaker.Execute, gobreaker.beforeRequest.
  rewrite Hcur, Hst. cbn.
  repeat split; reflexivity.
Qed.

Lemma circuit_open_is_terminal_witness :
  isRetryable ErrOpenState = false
  /\ fst (fst (SendMessage (steadyWorld (2 * Second) None apiSuccess) trippedAPI))
     = Returned (inl ErrOpenState)
  /\ netCalls (snd (SendMessage (steadyWorld (2 * Second) None apiSuccess)
                      trippedAPI)) = 0%nat
  /\ waits (snd (SendMessage (steadyWorld (2 * Second) None apiSuccess)
                   trippedAPI)) = [].
Proof.
  apply (circuit_open_is_terminal
           (steadyWorld (2 * Second) None apiSuccess) trippedAPI).
  - reflexivity.
  - reflexivity.
  - reflexivity.
  - vm_compute. reflexivity.
Defined.

(** ** Classification of application failures *)

(** A non-OK envelope comes back from [executeRequest] as a value, with a
    nil error: flag, code, description and payload as parsed, after exactly
    one network call. *)
Lemma executeRequest_not_ok
  (t : TelegramAPI) (status : Z) (hdr : string) (body : Envelope)
  (method : string) :
  body.(ok) = false ->
  exists resp evs,
    executeRequest t (Responds status hdr body) method = (inr resp, evs)
    /\ resp.(OK) = false
    /\ resp.(ErrorCode) = body.(error_code)
    /\ resp.(Description) = body.(description)
    /\ resp.(Result) = body.(result)
    /\ netCalls evs = 1%nat.
Proof.
  intro Hok. unfold executeRequest. cbn [OK ErrorCode Description Result].
  rewrite Hok. cbn [negb].
  destruct ((error_code body =? 429) && negb (is_empty hdr))%bool;
    [destruct (strconv.Atoi hdr)|];
    eexists; eexists; (split; [reflexivity|]);
    cbn [OK ErrorCode Description Result]; repeat split; reflexivity.
Qed.

(** X9: the error [sendMessageOnce] returns for a non-OK envelope is a bare
    string: the code, a space and the description after a fixed prefix. *)
Lemma sendMessageOnce_api_failure
  (t : TelegramAPI) (w : World) (attempt status : Z) (hdr : string)
  (body : Envelope) :
  w.(limiterWait) attempt = None ->
  snd (fst (fst (gobreaker.beforeRequest t.(breaker)
                   (fst (w.(clock) attempt))))) = None ->
  w.(roundTrip) attempt = Responds status hdr body ->
  body.(ok) = false ->
  fst (fst (sendMessageOnce t w attempt))
  = inl (apiError body.(error_code) body.(description)).
Proof.
  intros Hlim Hadm Hrt Hok.
  unfold sendMessageOnce. rewrite Hlim, Hrt.
  unfold gobreaker.Execute.
  destruct (gobreaker.beforeRequest (breaker t) (fst (clock w attempt)))
    as [[ge cb1] evs1].
  cbn [fst snd] in Hadm. rewrite Hadm.
  destruct (executeRequest_not_ok t status hdr body "sendMessage" Hok)
    as (resp & evs & Hex & HOK & Hcode & Hdesc & _).
  rewrite Hex.
  destruct (gobreaker.afterRequest cb1 _ _ _) as [cb2 evs2].
  rewrite HOK, Hcode, Hdesc. reflexivity.
Qed.

(** C7, at two failing inputs.  A 429 whose description mentions 403 (the
    server asks to retry after 403 seconds) is classified as not retryable;
    a 400 whose description mentions 429 (a parse error at byte offset 429)
    is classified as retryable.  The classification searches the whole
    message, description included, for the digits of the codes. *)
Theorem isRetryable_reads_the_description :
  let too_many :=
    apiFailure 429 "403" "Too Many Requests: retry after 403" in
  let bad_request :=
    apiFailure 400 ""
      "Bad Request: can't parse entities: Can't find end of the entity starting at byte offset 429" in
  (exists e,
     fst (fst (sendMessageOnce defaultAPI (steadyWorld 0 None too_many) 0))
     = inl e
     /\ isRetryable e = false)
  /\ (exists e,
        fst (fst (sendMessageOnce defaultAPI (steadyWorld 0 None bad_request) 0))
        = inl e
        /\ isRetryable e = true).
Proof.
  split; eexists; split; try (vm_compute; reflexivity).
Qed.

(** *** Descriptions without digits

    When the description holds no digit, the search can only hit the digits
    of the code itself, and for three-digit codes the classification is the
    documented one. *)

Lemma append_assoc (a b c : string) : (a ++ b) ++ c = a ++ b ++ c.
Proof. induction a as [|x a IH]; simpl; [reflexivity | rewrite IH; reflexivity]. Qed.

Lemma HasPrefix_nil_l (p : string) :
  p <> "" -> strings.HasPrefix "" p = false.
Proof. destruct p; [congruence | reflexivity]. Qed.

Lemma HasPrefix_digit_free (desc p : string) :
  p <> "" -> all_digits p = true -> digit_free desc = true ->
  strings.HasPrefix desc p = false.
Proof.
  intros Hp Hd Hf. destruct p as [|a p]; [congruence|].
  destruct desc as [|d desc]; [reflexivity|].
  unfold strings.HasPrefix. simpl in *.
  apply andb_true_iff in Hd as [Ha _]. apply andb_true_iff in Hf as [Hnd _].
  destruct (ascii_dec a d) as [->|_]; [|reflexivity].
  rewrite Ha in Hnd. discriminate.
Qed.

Lemma HasPrefix_digit_tail (s desc p : string) :
  all_digits p = true -> digit_free desc = true ->
  strings.HasPrefix (s ++ desc) p = strings.HasPrefix s p.
Proof.
  revert s. induction p as [|a p IH]; intros s Hd Hf.
  - unfold strings.HasPrefix. destruct (s ++ desc), s; reflexivity.
  - destruct s as [|c s].
    + change ("" ++ desc) with desc.
      rewrite HasPrefix_digit_free by (assumption || discriminate || reflexivity).
      reflexivity.
    + unfold strings.HasPrefix in *. simpl.
      destruct (ascii_dec a c); [|reflexivity].
      apply IH; [|exact Hf].
      simpl in Hd. apply andb_true_iff in Hd as [_ Hd]. exact Hd.
Qed.

Lemma Contains_digit_free (desc p : string) :
  p <> "" -> all_digits p = true -> digit_free desc = true ->
  strings.Contains desc p = false.
Proof.
  intros Hp Hd. induction desc as [|d desc IH]; intro Hf.
  - cbn [strings.Contains]. rewrite HasPrefix_nil_l by exact Hp. reflexivity.
  - cbn [strings.Contains].
    rewrite (HasPrefix_digit_free (String d desc) p Hp Hd Hf).
    simpl in Hf. apply andb_true_iff in Hf as [_ Hf].
    rewrite (IH Hf). reflexivity.
Qed.

Lemma Contains_digit_tail (s desc p : string) :
  p <> "" -> all_digits p = true -> digit_free desc = true ->
  strings.Contains (s ++ desc) p = strings.Contains s p.
Proof.
  intros Hp Hd Hf. induction s as [|c s IH].
  - change ("" ++ desc) with desc.
    rewrite (Contains_digit_free desc p Hp Hd Hf).
    cbn [strings.Contains]. rewrite HasPrefix_nil_l by exact Hp. reflexivity.
  - change (String c s ++ desc) with (String c (s ++ desc)).
    cbn [strings.Contains]. rewrite IH.
    change (String c (s ++ desc)) with (String c s ++ desc).
    rewrite HasPrefix_digit_tail by assumption. reflexivity.
Qed.

Lemma isRetryable_digit_free_description (code : Z) (desc : string) :
  digit_free desc = true ->
  isRetryable (apiError code desc) = isRetryable (apiError code "").
Proof.
  intro Hf. unfold apiError.
  assert (Hm : forall d,
             strings.Contains
               ("telegram API error: " ++ strconv.Itoa code ++ " " ++ d)
               "telegram API error" = true).
  { intro d.
    apply (Contains_middle "" "telegram API error"
             (": " ++ strconv.Itoa code ++ " " ++ d)). }
  assert (Hsplit :
            "telegram API error: " ++ strconv.Itoa code ++ " " ++ desc
            = ("telegram API error: " ++ strconv.Itoa code ++ " " ++ "")
              ++ desc).
  { rewrite !append_assoc. reflexivity. }
  unfold isRetryable, extractTelegramError.
  cbn [errors.As_netError implements_netError errors.Is GoError_eqb_sentinel
       orb Error].
  rewrite !Hm. rewrite Hsplit.
  set (prefix := "telegram API error: " ++ strconv.Itoa code ++ " " ++ "").
  rewrite (Contains_digit_tail prefix desc "403") by (assumption || discriminate || reflexivity).
  rewrite (Contains_digit_tail prefix desc "429") by (assumption || discriminate || reflexivity).
  rewrite (Contains_digit_tail prefix desc "500") by (assumption || discriminate || reflexivity).
  rewrite (Contains_digit_tail prefix desc "502") by (assumption || discriminate || reflexivity).
  rewrite (Contains_digit_tail prefix desc "503") by (assumption || discriminate || reflexivity).
  rewrite (Contains_digit_tail prefix desc "504") by (assumption || discriminate || reflexivity).
  reflexivity.
Qed.

Lemma isRetryable_three_digit_codes :
  forallb
    (fun code =>
       Bool.eqb (isRetryable (apiError code ""))
         ((code =? 429) || (code =? 500) || (code =? 502) || (code =? 503)
          || (code =? 504)))
    (map Z.of_nat (seq 100 900)) = true.
Proof. vm_compute. reflexivity. Qed.

(** X13: for a three-digit error code and a description without digits,
    isRetryable answers true exactly for 429, 500, 502, 503 and 504. *)
Lemma isRetryable_api_codes (code : Z) (desc : string) :
  100 <= code <= 999 -> digit_free desc = true ->
  isRetryable (apiError code desc)
  = (code =? 429) || (code =? 500) || (code =? 502) || (code =? 503)
    || (code =? 504).
Proof.
  intros Hc Hf. rewrite (isRetryable_digit_free_description code desc Hf).
  pose proof isRetryable_three_digit_codes as Hall.
  rewrite forallb_forall in Hall.
  apply Bool.eqb_prop. apply Hall.
  apply in_map_iff. exists (Z.to_nat code). split; [lia|].
  apply in_seq. lia.
Qed.

(** Errors that do not carry the marker text are never retried. *)
Lemma isRetryable_unclassified (s : string) :
  strings.Contains s "telegram API error" = false ->
  isRetryable (errorString s) = false.
Proof.
  intro H. unfold isRetryable, extractTelegramError. cbn.
  rewrite H. reflexivity.
Qed.

(** ** What the breaker sees *)

Lemma setState_failureCount (cb : gobreaker.CircuitBreaker)
  (s : gobreaker.State) (now : Z) :
  failureCount (fst (gobreaker.setState cb s now)) = failureCount cb
  \/ failureCount (fst (gobreaker.setState cb s now)) = 0.
Proof.
  unfold gobreaker.setState.
  destruct (gobreaker.State_eqb (gobreaker.state cb) s); [left | right];
    reflexivity.
Qed.

Lemma currentState_failureCount (cb : gobreaker.CircuitBreaker) (now : Z) :
  failureCount (fst (gobreaker.currentState cb now)) = failureCount cb
  \/ failureCount (fst (gobreaker.currentState cb now)) = 0.
Proof.
  unfold gobreaker.currentState.
  destruct (gobreaker.state cb);
    destruct (gobreaker.expiry cb) as [e|]; try destruct (e <? now);
    try apply setState_failureCount; try (left; reflexivity);
    right; reflexivity.
Qed.

Lemma beforeRequest_failureCount (cb : gobreaker.CircuitBreaker) (now : Z) :
  failureCount (snd (fst (gobreaker.beforeRequest cb now))) = failureCount cb
  \/ failureCount (snd (fst (gobreaker.beforeRequest cb now))) = 0.
Proof.
  unfold gobreaker.beforeRequest.
  pose proof (currentState_failureCount cb now) as H.
  destruct (gobreaker.currentState cb now) as [cb1 evs]. cbn [fst] in H.
  destruct (gobreaker.state cb1);
    try destruct (gobreaker.maxRequests cb1 <=? _); exact H.
Qed.

Lemma onSuccess_failureCount (cb : gobreaker.CircuitBreaker) (now : Z) :
  failureCount (fst (gobreaker.onSuccess cb now)) = failureCount cb
  \/ failureCount (fst (gobreaker.onSuccess cb now)) = 0.
Proof.
  unfold gobreaker.onSuccess.
  destruct (gobreaker.state cb); try (left; reflexivity).
  match goal with |- context [if ?c then _ else _] => destruct c end.
  - apply (setState_failureCount
             (gobreaker.with_counts cb
                (gobreaker.Counts_onSuccess (gobreaker.counts cb)))).
  - left; reflexivity.
Qed.

(** Recording a success never raises the failure count. *)
Lemma afterRequest_success_failureCount
  (cb : gobreaker.CircuitBreaker) (now before : Z) :
  failureCount (fst (gobreaker.afterRequest cb now before true))
  = failureCount cb
  \/ failureCount (fst (gobreaker.afterRequest cb now before true)) = 0.
Proof.
  unfold gobreaker.afterRequest.
  pose proof (currentState_failureCount cb now) as H.
  destruct (gobreaker.currentState cb now) as [cb1 evs]. cbn [fst] in H.
  destruct (negb (gobreaker.generation cb1 =? before)); [exact H|].
  pose proof (onSuccess_failureCount cb1 now) as H1.
  destruct (gobreaker.onSuccess cb1 now) as [cb2 evs2]. cbn [fst] in *.
  destruct H as [H|H], H1 as [H1|H1]; rewrite ?H1, ?H; auto.
Qed.

Lemma Execute_success_failureCount
  (cb : gobreaker.CircuitBreaker) (tBefore tAfter : Z)
  (req : unit -> (GoError + TelegramResponse) * list Event) :
  gobreaker.isSuccessful (fst (req tt)) = true ->
  failureCount (snd (fst (gobreaker.Execute cb tBefore tAfter req)))
  = failureCount cb
  \/ failureCount (snd (fst (gobreaker.Execute cb tBefore tAfter req))) = 0.
Proof.
  intro Hs. unfold gobreaker.Execute.
  pose proof (beforeRequest_failureCount cb tBefore) as H.
  destruct (gobreaker.beforeRequest cb tBefore) as [[ge cb1] evs1].
  cbn [fst snd] in *.
  destruct (snd ge); [exact H|].
  destruct (req tt) as [res evs]. cbn [fst] in Hs. rewrite Hs.
  pose proof (afterRequest_success_failureCount cb1 tAfter (fst ge)) as H1.
  destruct (gobreaker.afterRequest cb1 tAfter (fst ge) true) as [cb2 evs2].
  cbn [fst snd] in *.
  destruct H as [H|H], H1 as [H1|H1]; rewrite ?H1, ?H; auto.
Qed.



(** Six answers with error code 400 leave the breaker closed with no
    failure counted, six refused connections open it. *)
Example breaker_after_six_sends :
  let served := afterSends 6
    (steadyWorld Second None (apiFailure 400 "" "Bad Request: chat not found"))
    defaultAPI in
  served.(breaker).(gobreaker.state) = gobreaker.StateClosed
  /\ failureCount served.(breaker) = 0
  /\ served.(breaker).(gobreaker.counts).(gobreaker.TotalSuccesses) = 6
  /\ trippedAPI.(breaker).(gobreaker.state) = gobreaker.StateOpen.
Proof. vm_compute. repeat split; reflexivity. Qed.

(** One refused connection raises the failure count by one. *)
Example transport_failure_is_counted :
  failureCount
    (snd (fst (gobreaker.Execute defaultAPI.(breaker) 1 2
                 (fun _ => executeRequest defaultAPI connectionRefused
                             "sendMessage"))))
  = failureCount defaultAPI.(breaker) + 1.
Proof. vm_compute. reflexivity. Qed.

(** ** The credential in errors and log records *)


(** C4, at the failing input: the connection is refused on the first
    attempt.  The error SendMessage returns and the "non-retryable error"
    record it logs both contain the bot token, inside the URL that
    [http.Client.Do] puts into its error. *)
Theorem SendMessage_leaks_token :
  let w := steadyWorld 0 None connectionRefused in
  (exists e,
     fst (fst (SendMessage w defaultAPI)) = Returned (inl e)
     /\ strings.Contains (Error e) defaultAPI.(config).(BotToken) = true)
  /\ existsb (Event_mentions defaultAPI.(config).(BotToken))
       (snd (SendMessage w defaultAPI)) = true.
Proof.
  split.
  - eexists. split; vm_compute; reflexivity.
  - vm_compute. reflexivity.
Qed.

(** ** The retry branch of SendMessage *)

(** X18: after a retryable failure with attempts left, SendMessage panics in
    [errors.As]: it neither waits nor tries again, its trace is that of
    the first attempt. *)
Lemma retryable_failure_panics (w : World) (t : TelegramAPI) (e : GoError) :
  ValidateConfig t.(config) = None ->
  0 < t.(config).(MaxRetries) ->
  fst (fst (sendMessageOnce t w 0)) = inl e ->
  isRetryable e = true ->
  fst (fst (SendMessage w t))
  = Panicked "errors: *target must be interface or implement error"
  /\ snd (SendMessage w t) = snd (sendMessageOnce t w 0).
Proof.
  intros Hcfg Hmax Hsend Hretry.
  unfold SendMessage, SendMessage_with. first_iteration Hcfg.
  destruct (sendMessageOnce t w 0) as [[r cb] evs].
  cbn [fst snd] in *. subst r. rewrite Hretry.
  cbn. split; reflexivity.
Qed.

(** With a lookup that finds nothing, a context that is done during the
    wait after the first attempt makes the loop return the context's error,
    with no wait completed and no network call beyond that attempt's. *)
Lemma cancel_during_wait_without_panic
  (w : World) (t : TelegramAPI) (e ctxErr : GoError) :
  ValidateConfig t.(config) = None ->
  0 < t.(config).(MaxRetries) ->
  fst (fst (sendMessageOnce t w 0)) = inl e ->
  isRetryable e = true ->
  w.(ctxDone) 0 = Some ctxErr ->
  fst (fst (SendMessage_with As_nothing w t)) = Returned (inl ctxErr)
  /\ netCalls (snd (SendMessage_with As_nothing w t))
     = netCalls (snd (sendMessageOnce t w 0))
  /\ waits (snd (SendMessage_with As_nothing w t))
     = waits (snd (sendMessageOnce t w 0)).
Proof.
  intros Hcfg Hmax Hsend Hretry Hctx.
  unfold SendMessage_with. first_iteration Hcfg.
  destruct (sendMessageOnce t w 0) as [[r cb] evs].
  cbn [fst snd] in *. subst r. rewrite Hretry.
  cbn [negb As_nothing]. rewrite Hctx. cbn [fst snd].
  split; [reflexivity|]. split.
  - unfold netCalls. rewrite filter_app. cbn. rewrite app_nil_r. reflexivity.
  - unfold waits. rewrite flat_map_app. cbn. rewrite app_nil_r. reflexivity.
Qed.

(** C1, at the failing input: every attempt is answered 429 with
    Retry-After: 5.  [executeRequest] stores the five seconds in the
    envelope, but the error [sendMessageOnce] makes of the envelope is a
    bare string, and the retry branch asks [errors.As] for a
    [*TelegramResponse], which no error is.  The call panics before any
    wait; with a lookup that finds nothing instead, the waits are the
    computed 120 ms, 160 ms and 480 ms.  No wait is five seconds. *)
Theorem retry_after_hint_is_lost :
  (exists resp evs,
     executeRequest defaultAPI (throttled.(roundTrip) 0) "sendMessage"
     = (inr resp, evs)
     /\ resp.(RetryAfter) = 5 * Second)
  /\ (exists e,
        fst (fst (sendMessageOnce defaultAPI throttled 0)) = inl e
        /\ isRetryable e = true
        /\ 0 < defaultAPI.(config).(MaxRetries))
  /\ fst (fst (SendMessage throttled defaultAPI))
     = Panicked "errors: *target must be interface or implement error"
  /\ waits (snd (SendMessage throttled defaultAPI)) = []
  /\ waits (snd (SendMessage_with As_nothing throttled defaultAPI))
     = [120 * Millisecond; 160 * Millisecond; 480 * Millisecond]
  /\ ~ In (5 * Second)
         (waits (snd (SendMessage_with As_nothing throttled defaultAPI))).
Proof.
  split; [eexists; eexists; split; vm_compute; reflexivity|].
  split; [eexists; repeat split; vm_compute; reflexivity|].
  split; [vm_compute; reflexivity|].
  split; [vm_compute; reflexivity|].
  split; [vm_compute; reflexivity|].
  vm_compute. intros [H|[H|[H|[]]]]; discriminate.
Qed.



(** * Further properties of the package *)

(** ** validateBotToken *)

Lemma Contains_byte (c : ascii) (s : string) :
  strings.Contains s (String c "") = has_byte c s.
Proof.
  induction s as [|d s IH]; [reflexivity|].
  cbn [strings.Contains has_byte]. rewrite IH. f_equal.
  unfold strings.HasPrefix. simpl.
  destruct (ascii_dec c d) as [->|Hne].
  - rewrite Ascii.eqb_refl. destruct s; reflexivity.
  - symmetry. apply Ascii.eqb_neq. congruence.
Qed.

Lemma Split_nonempty (s : string) (c : ascii) : strings.Split s c <> [].
Proof.
  destruct s as [|d s]; simpl; [discriminate|].
  destruct (Ascii.eqb d c); [discriminate|].
  destruct (strings.Split s c); discriminate.
Qed.

Lemma Split_without_sep (s : string) (c : ascii) :
  has_byte c s = false -> strings.Split s c = [s].
Proof.
  induction s as [|d s IH]; intro H; [reflexivity|].
  simpl in *. apply orb_false_iff in H as [Hd Hs].
  rewrite Hd, (IH Hs). reflexivity.
Qed.

Lemma Split_at_sep (a b : string) (c : ascii) :
  has_byte c a = false ->
  strings.Split (a ++ String c b) c = a :: strings.Split b c.
Proof.
  induction a as [|d a IH]; intro H.
  - simpl. rewrite Ascii.eqb_refl. reflexivity.
  - simpl in *. apply orb_false_iff in H as [Hd Ha].
    rewrite Hd, (IH Ha). reflexivity.
Qed.

Lemma Split_head (s : string) (c : ascii) (p : string) (ps : list string) :
  strings.Split s c = p :: ps ->
  has_byte c p = false
  /\ ((ps = [] /\ s = p)
      \/ exists b, s = p ++ String c b /\ strings.Split b c = ps).
Proof.
  revert p ps. induction s as [|d s IH]; intros p ps H.
  - simpl in H. inversion H. subst. split; [reflexivity | left; auto].
  - simpl in H. destruct (Ascii.eqb d c) eqn:Hd.
    + inversion H. subst. apply Ascii.eqb_eq in Hd. subst d.
      split; [reflexivity|]. right. exists s. auto.
    + destruct (strings.Split s c) as [|q qs] eqn:Hs;
        [exfalso; eapply Split_nonempty; eassumption|].
      injection H as <- <-. destruct (IH q qs eq_refl) as [Hq Hcase].
      split; [simpl; rewrite Hd, Hq; reflexivity|].
      destruct Hcase as [[Hqs Hsq]|[b [Hsb Hb]]].
      * left. subst. auto.
      * right. exists b. subst. auto.
Qed.

(** A string splits into exactly two parts at [c] when it is the two parts
    around one [c], neither holding another. *)
Lemma Split_two (s : string) (c : ascii) (a b : string) :
  strings.Split s c = [a; b] <->
  s = a ++ String c b /\ has_byte c a = false /\ has_byte c b = false.
Proof.
  split.
  - intro H. destruct (Split_head _ _ _ _ H) as [Ha [[Hnil _]|[b' [-> Hb']]]];
      [discriminate|].
    destruct (Split_head _ _ _ _ Hb') as [Hb [[_ ->]|[b'' [_ Hb'']]]].
    + auto.
    + exfalso. eapply Split_nonempty; eassumption.
  - intros (-> & Ha & Hb).
    rewrite (Split_at_sep a b c Ha), (Split_without_sep b c Hb). reflexivity.
Qed.

Lemma length_append (a b : string) :
  String.length (a ++ b) = (String.length a + String.length b)%nat.
Proof. induction a as [|c a IH]; simpl; [reflexivity | rewrite IH; reflexivity]. Qed.

Lemma has_byte_append (c : ascii) (a b : string) :
  has_byte c (a ++ b) = has_byte c a || has_byte c b.
Proof.
  induction a as [|d a IH]; simpl; [reflexivity|].
  rewrite IH. apply orb_assoc.
Qed.

(** X1: validateBotToken accepts exactly the tokens [id:secret] with a single
    colon, an [id] that [ParseInt] reads as a 64-bit number (a sign is
    allowed) and a [secret] of at least 30 bytes; the minimum length of 10 is
    implied. *)
Theorem validateBotToken_accepts_iff (token : string) :
  validateBotToken token = true <->
  exists id secret : string,
    token = id ++ ":" ++ secret
    /\ has_byte ":" id = false
    /\ has_byte ":" secret = false
    /\ (exists n, strconv.ParseInt id = inr n)
    /\ (30 <= String.length secret)%nat.
Proof.
  unfold validateBotToken. rewrite Contains_byte. split.
  - destruct ((Z.of_nat (String.length token) <? 10)
              || negb (has_byte ":" token))%bool; [discriminate|].
    destruct (strings.Split token ":") as [|id [|secret [|x xs]]] eqn:Hs;
      try discriminate.
    apply Split_two in Hs as (-> & Hid & Hsec).
    destruct (strconv.ParseInt id) as [e|n] eqn:Hp; [discriminate|].
    destruct (Z.of_nat (String.length secret) <? 30) eqn:Hl; [discriminate|].
    intros _. exists id, secret. repeat split; auto.
    + exists n. exact Hp.
    + apply Z.ltb_ge in Hl. lia.
  - intros (id & secret & -> & Hid & Hsec & [n Hn] & Hlen).
    assert (Hs : strings.Split (id ++ ":" ++ secret) ":" = [id; secret])
      by (apply Split_two; auto).
    rewrite Hs, Hn.
    rewrite has_byte_append. cbn [has_byte append]. rewrite Ascii.eqb_refl.
    rewrite orb_true_r. cbn [negb orb].
    rewrite length_append. cbn [append String.length].
    replace (Z.of_nat (String.length id + S (String.length secret)) <? 10)
      with false by (symmetry; apply Z.ltb_ge; lia).
    replace (Z.of_nat (String.length secret) <? 30)
      with false by (symmetry; apply Z.ltb_ge; lia).
    reflexivity.
Qed.

(** ** The trip condition and the fresh client *)

(** X2: the breaker is told to trip exactly when the window holds at least six
    requests and at least half of them failed. *)
Theorem readyToTrip_iff (counts : gobreaker.Counts) :
  readyToTrip counts = true <->
  6 <= counts.(gobreaker.Requests)
  /\ counts.(gobreaker.Requests) <= 2 * counts.(gobreaker.TotalFailures).
Proof.
  unfold readyToTrip, int_to_float64.
  destruct counts as [r s f cs cf]. cbn [gobreaker.Requests gobreaker.TotalFailures].
  rewrite andb_true_iff, Z.gtb_lt, Qle_bool_iff.
  destruct r as [|p|p].
  - split; intros [H1 H2]; lia.
  - unfold Qle, Qdiv, Qinv, Qmult, inject_Z. cbn [Qnum Qden].
    split; intros [H1 H2]; split; lia.
  - split; intros [H1 H2]; lia.
Qed.

(** X3: whatever the configuration and the clock, the breaker of a client that
    has just been built is closed with an empty window and admits the first
    request. *)
Theorem fresh_client_admits (cfg : Config) (built now : Z) :
  let cb := (NewTelegramAPI cfg built).(breaker) in
  cb.(gobreaker.state) = gobreaker.StateClosed
  /\ cb.(gobreaker.counts) = gobreaker.Counts_clear
  /\ snd (fst (fst (gobreaker.beforeRequest cb now))) = None
  /\ (snd (fst (gobreaker.beforeRequest cb now))).(gobreaker.counts)
       .(gobreaker.Requests) = 1.
Proof.
  cbn. split; [reflexivity|]. split; [reflexivity|].
  unfold gobreaker.beforeRequest, gobreaker.currentState. cbn.
  destruct (BreakerInterval cfg <=? 0); cbn.
  - split; reflexivity.
  - destruct (BreakerInterval cfg =? 0); cbn; [split; reflexivity|].
    destruct (built + BreakerInterval cfg <? now); cbn; split; reflexivity.
Qed.

(** ** Decimal numbers: printing and reading back *)

Lemma digitChar_is_digit (d : Z) :
  0 <= d <= 9 ->
  strconv.isDigit (strconv.digitChar d) = true
  /\ strconv.digitVal (strconv.digitChar d) = d.
Proof.
  intro H.
  assert (Hd : d = 0 \/ d = 1 \/ d = 2 \/ d = 3 \/ d = 4 \/ d = 5 \/ d = 6
               \/ d = 7 \/ d = 8 \/ d = 9) by lia.
  repeat (destruct Hd as [->|Hd]; [split; reflexivity|]).
  subst. split; reflexivity.
Qed.

Lemma reads_as_digit (d : Z) :
  0 <= d <= 9 -> reads_as (String (strconv.digitChar d) "") d.
Proof.
  intros Hd m rest Hm Hlt.
  destruct (digitChar_is_digit d Hd) as [Hi Hv].
  cbn [append strconv.parseUintLoop String.length] in *.
  rewrite Hi, Hv.
  change (10 ^ Z.of_nat 1) with 10 in *.
  replace (2 ^ 64 <=? m * 10 + d) with false
    by (symmetry; apply Z.leb_gt; lia).
  reflexivity.
Qed.

Lemma formatDigits_S (fuel : nat) (n : Z) (acc : string) :
  strconv.formatDigits (S fuel) n acc
  = if n <? 10 then String (strconv.digitChar (n mod 10)) acc
    else strconv.formatDigits fuel (n / 10)
           (String (strconv.digitChar (n mod 10)) acc).
Proof. reflexivity. Qed.

Lemma formatDigits_reads_as (fuel : nat) :
  forall (n : Z) (acc : string),
    0 <= n < 10 ^ Z.of_nat (S fuel) ->
    exists ds,
      strconv.formatDigits (S fuel) n acc = ds ++ acc
      /\ ds <> "" /\ all_digits ds = true /\ reads_as ds n.
Proof.
  induction fuel as [|fuel IH]; intros n acc Hn.
  - exists (String (strconv.digitChar (n mod 10)) "").
    change (10 ^ Z.of_nat 1) with 10 in Hn.
    rewrite Z.mod_small by lia.
    destruct (digitChar_is_digit n ltac:(lia)) as [Hi _].
    cbn [strconv.formatDigits]. rewrite Z.mod_small by lia.
    destruct (n <? 10); repeat split; try reflexivity; try discriminate.
    + cbn [all_digits]. rewrite Hi. reflexivity.
    + apply reads_as_digit; lia.
    + cbn [all_digits]. rewrite Hi. reflexivity.
    + apply reads_as_digit; lia.
  - rewrite formatDigits_S.
    assert (Hmod : 0 <= n mod 10 <= 9)
      by (pose proof (Z.mod_pos_bound n 10 ltac:(lia)); lia).
    destruct (digitChar_is_digit (n mod 10) Hmod) as [Hi Hv].
    destruct (Z.ltb_spec n 10) as [Hsmall|Hbig].
    + exists (String (strconv.digitChar (n mod 10)) "").
      repeat split; try discriminate.
      * cbn [all_digits]. rewrite Hi. reflexivity.
      * rewrite Z.mod_small by lia. apply reads_as_digit; lia.
    + assert (Hdiv : 0 <= n / 10 < 10 ^ Z.of_nat (S fuel)).
      { split; [apply Z.div_pos; lia|].
        apply Z.div_lt_upper_bound; [lia|].
        replace (Z.of_nat (S (S fuel))) with (Z.of_nat (S fuel) + 1) in Hn
          by lia.
        rewrite Z.pow_add_r, Z.pow_1_r in Hn by lia. lia. }
      destruct (IH (n / 10) (String (strconv.digitChar (n mod 10)) acc) Hdiv)
        as (ds & Hfmt & Hne & Hall & Hread).
      exists (ds ++ String (strconv.digitChar (n mod 10)) "").
      split; [|split; [|split]].
      * rewrite Hfmt, append_assoc. reflexivity.
      * destruct ds; [congruence | discriminate].
      * clear - Hall Hi. induction ds as [|c ds IHds]; cbn [append all_digits] in *.
        -- rewrite Hi. reflexivity.
        -- apply andb_true_iff in Hall as [Hc Hds].
           rewrite Hc, (IHds Hds). reflexivity.
      * intros m rest Hm Hlt.
        rewrite length_append in Hlt |- *.
        cbn [String.length] in Hlt |- *.
        replace (Z.of_nat (String.length ds + 1))
          with (Z.of_nat (String.length ds) + 1) in * by lia.
        rewrite Z.pow_add_r, Z.pow_1_r in * by lia.
        pose proof (Z.div_mod n 10 ltac:(lia)) as Hdm.
        assert (Hpow : 0 < 10 ^ Z.of_nat (String.length ds))
          by (apply Z.pow_pos_nonneg; lia).
        rewrite append_assoc. cbn [append].
        rewrite (Hread m) by nia.
        cbn [strconv.parseUintLoop]. rewrite Hi, Hv.
        replace ((m * 10 ^ Z.of_nat (String.length ds) + n / 10) * 10
                 + n mod 10)
          with (m * (10 ^ Z.of_nat (String.length ds) * 10) + n) by lia.
        replace (2 ^ 64 <=? m * (10 ^ Z.of_nat (String.length ds) * 10) + n)
          with false by (symmetry; apply Z.leb_gt; lia).
        reflexivity.
Qed.

Lemma isDigit_not_sign (c : ascii) :
  strconv.isDigit c = true ->
  Ascii.eqb c "+" = false /\ Ascii.eqb c "-" = false.
Proof.
  intro H. split; apply Ascii.eqb_neq; intros ->; discriminate.
Qed.

Lemma Itoa_fuel (n : Z) :
  0 <= n -> 0 <= n < 10 ^ Z.of_nat (S (Z.to_nat (Z.log2 n))).
Proof.
  intro Hn. split; [lia|].
  destruct (Z.eq_dec n 0) as [->|Hnz]; [reflexivity|].
  pose proof (Z.log2_nonneg n).
  pose proof (Z.log2_spec n ltac:(lia)) as [_ Hlt].
  rewrite Nat2Z.inj_succ, Z2Nat.id by lia.
  eapply Z.lt_le_trans; [exact Hlt|].
  apply Z.pow_le_mono_l. lia.
Qed.

Lemma Itoa_not_empty (n : Z) : 0 <= n -> is_empty (strconv.Itoa n) = false.
Proof.
  intro Hn. unfold strconv.Itoa.
  replace (n <? 0) with false by (symmetry; apply Z.ltb_ge; lia).
  destruct (formatDigits_reads_as _ n "" (Itoa_fuel n Hn))
    as (ds & Hfmt & Hne & _).
  rewrite Hfmt. destruct ds; [congruence | reflexivity].
Qed.

(** Reading back what [Itoa] printed gives the number, for every
    non-negative 64-bit number. *)
Lemma Atoi_Itoa (n : Z) :
  0 <= n < 2 ^ 63 -> strconv.Atoi (strconv.Itoa n) = inr n.
Proof.
  intro Hn. unfold strconv.Atoi, strconv.Itoa.
  replace (n <? 0) with false by (symmetry; apply Z.ltb_ge; lia).
  pose proof (Itoa_fuel n ltac:(lia)) as Hfuel.
  destruct (formatDigits_reads_as _ n "" Hfuel)
    as (ds & Hfmt & Hne & Hall & Hread).
  rewrite Hfmt.
  assert (Happ : ds ++ "" = ds).
  { clear. induction ds; simpl; [reflexivity | rewrite IHds; reflexivity]. }
  rewrite Happ.
  destruct ds as [|c ds]; [congruence|].
  cbn [all_digits] in Hall. apply andb_true_iff in Hall as [Hc _].
  destruct (isDigit_not_sign c Hc) as [Hplus Hminus].
  unfold strconv.ParseInt. rewrite Hplus, Hminus. cbn [orb negb andb].
  unfold strconv.ParseUint.
  pose proof (Hread 0 "" ltac:(lia) ltac:(lia)) as Hr.
  rewrite Happ in Hr. rewrite Hr. cbn [strconv.parseUintLoop].
  replace (0 * 10 ^ Z.of_nat (String.length (String c ds)) + n) with n by lia.
  replace (2 ^ 63 <=? n) with false by (symmetry; apply Z.leb_gt; lia).
  reflexivity.
Qed.

(** ** executeRequest *)

(** X4: a retry-after duration is attached only to a failure envelope with
    error code 429 whose Retry-After header is a decimal number of seconds;
    every other envelope leaves [executeRequest] with a zero hint, whatever
    the header says. *)
Theorem RetryAfter_only_for_429
  (t : TelegramAPI) (status : Z) (hdr : string) (body : Envelope)
  (method : string) (resp : TelegramResponse) (evs : list Event) :
  executeRequest t (Responds status hdr body) method = (inr resp, evs) ->
  resp.(RetryAfter) <> 0 ->
  body.(ok) = false
  /\ body.(error_code) = 429
  /\ hdr <> ""
  /\ exists seconds,
       strconv.Atoi hdr = inr seconds
       /\ resp.(RetryAfter) = wrap64 (seconds * Second).
Proof.
  unfold executeRequest. cbn [OK ErrorCode Description Result].
  destruct (ok body); cbn [negb].
  - intro H. injection H as <- _. cbn. congruence.
  - destruct (error_code body =? 429) eqn:Hc; cbn [andb].
    + destruct (is_empty hdr) eqn:He; cbn [negb].
      * intro H. injection H as <- _. cbn. congruence.
      * destruct (strconv.Atoi hdr) as [e|n] eqn:Ha.
        -- intro H. injection H as <- _. cbn. congruence.
        -- intro H. injection H as <- _. cbn [RetryAfter]. intros _.
           apply Z.eqb_eq in Hc. apply is_empty_false in He.
           repeat split; auto. exists n. auto.
    + intro H. injection H as <- _. cbn. congruence.
Qed.

Lemma RetryAfter_only_for_429_witness :
  false = false
  /\ 429 = 429
  /\ "5" <> ""
  /\ exists seconds,
       strconv.Atoi "5" = inr seconds
       /\ 5 * Second = wrap64 (seconds * Second).
Proof.
  apply (RetryAfter_only_for_429 defaultAPI 429 "5"
           {| ok := false; result := ""; error_code := 429;
              description := "Too Many Requests" |}
           "sendMessage"
           {| OK := false; Result := ""; ErrorCode := 429;
              Description := "Too Many Requests"; RetryAfter := 5 * Second |}
           (snd (executeRequest defaultAPI
                   (apiFailure 429 "5" "Too Many Requests") "sendMessage"))).
  - vm_compute. reflexivity.
  - vm_compute. discriminate.
Defined.

(** X5: a 429 envelope with the header [Retry-After: n], n written in decimal,
    comes back with a hint of exactly n seconds, for every n whose
    nanoseconds fit in 64 bits. *)
Theorem RetryAfter_is_the_header_in_seconds
  (t : TelegramAPI) (status n : Z) (body : Envelope) (method : string) :
  body.(ok) = false ->
  body.(error_code) = 429 ->
  0 <= n -> n * Second < 2 ^ 63 ->
  exists resp evs,
    executeRequest t (Responds status (strconv.Itoa n) body) method
    = (inr resp, evs)
    /\ resp.(RetryAfter) = n * Second.
Proof.
  intros Hok Hcode Hn Hfit.
  assert (Hn63 : 0 <= n < 2 ^ 63) by (unfold Second in Hfit; lia).
  pose proof (Itoa_not_empty n Hn) as Hne.
  unfold executeRequest. cbn [OK ErrorCode Description Result].
  rewrite Hok, Hcode, Hne, (Atoi_Itoa n Hn63). cbn [negb andb Z.eqb Pos.eqb].
  eexists. eexists. split; [reflexivity|].
  cbn [RetryAfter]. apply wrap64_small. unfold Second in *. lia.
Qed.

Lemma RetryAfter_is_the_header_in_seconds_witness :
  exists resp evs,
    executeRequest defaultAPI
      (Responds 429 (strconv.Itoa 30)
         {| ok := false; result := ""; error_code := 429;
            description := "Too Many Requests: retry after 30" |})
      "sendMessage"
    = (inr resp, evs)
    /\ resp.(RetryAfter) = 30 * Second.
Proof.
  apply (RetryAfter_is_the_header_in_seconds defaultAPI 429 30
           {| ok := false; result := ""; error_code := 429;
              description := "Too Many Requests: retry after 30" |}
           "sendMessage").
  - reflexivity.
  - reflexivity.
  - lia.
  - reflexivity.
Defined.

(** X6: one call of [executeRequest] starts at most one round trip, always to
    base/bot<token>/method: none when the request could not be built, one
    otherwise.  It writes a log record only for an envelope that reports a
    failure; a failed round trip is returned unlogged. *)
Theorem executeRequest_effects
  (t : TelegramAPI) (rt : RoundTrip) (method : string) :
  let evs := snd (executeRequest t rt method) in
  netCalls evs = (if fails_before_sending rt then 0 else 1)%nat
  /\ (forall url, In (NetCall url) evs -> url = requestURL t method)
  /\ List.length (List.filter is_Log evs)
     = (if answers_not_ok rt then 1 else 0)%nat
  /\ waits evs = [].
Proof.
  destruct rt as [e|c|c|e|e|s h b]; cbn.
  1-2: repeat split; try reflexivity; intros url [].
  1-3: repeat split; try reflexivity;
       intros url [H|[]]; injection H as <-; reflexivity.
  unfold executeRequest. cbn [OK ErrorCode Description Result].
  destruct (ok b); cbn [negb].
  - cbn. repeat split; try reflexivity.
    intros url [H|[]]. injection H as <-. reflexivity.
  - destruct ((error_code b =? 429) && negb (is_empty h))%bool;
      [destruct (strconv.Atoi h)|]; cbn; repeat split; try reflexivity;
      intros url [H|[H|[]]]; try discriminate; injection H as <-; reflexivity.
Qed.

(** ** calculateBackoff beyond whole multipliers *)

Lemma float64_to_int64_floor (q : Q) :
  (0 <= q)%Q -> Qfloor q < 2 ^ 63 -> float64_to_int64 q = Qfloor q.
Proof.
  intros Hq Hk. unfold float64_to_int64. destruct q as [a d].
  assert (Ha : 0 <= a) by (unfold Qle in Hq; cbn [Qnum Qden] in Hq; lia).
  cbn [Qnum Qden Qfloor] in *.
  rewrite Z.quot_div_nonneg by lia.
  rewrite in_int64_true; [reflexivity|].
  assert (0 <= a / Z.pos d) by (apply Z.div_pos; lia). lia.
Qed.

(** The capped base: the power of the multiplier is cut to a whole number
    before it scales the initial delay. *)
Lemma cappedBackoff_of_floor (t : TelegramAPI) (n : Z) :
  (0 <= t.(config).(RetryBackoffFactor) ^ (n - 1))%Q ->
  0 <= t.(config).(RetryInitialBackoff) ->
  Qfloor (t.(config).(RetryBackoffFactor) ^ (n - 1)) < 2 ^ 63 ->
  t.(config).(RetryInitialBackoff)
  * Qfloor (t.(config).(RetryBackoffFactor) ^ (n - 1)) < 2 ^ 63 ->
  cappedBackoff t n
  = Z.min t.(config).(RetryMaxBackoff)
      (t.(config).(RetryInitialBackoff)
       * Qfloor (t.(config).(RetryBackoffFactor) ^ (n - 1))).
Proof.
  intros Hpow Hinit Hk Hmul. unfold cappedBackoff, math.Pow.
  rewrite (float64_to_int64_floor _ Hpow Hk).
  set (k := Qfloor (RetryBackoffFactor (config t) ^ (n - 1))) in *.
  assert (0 <= k).
  { unfold k. rewrite <- (Qfloor_Z 0). apply Qfloor_resp_le. exact Hpow. }
  rewrite wrap64_small by nia.
  destruct (Z.gtb_spec (RetryInitialBackoff (config t) * k)
                       (RetryMaxBackoff (config t))); lia.
Qed.



Lemma Qpower_below_one (f : Q) (z : Z) :
  (0 < f)%Q -> (f < 1)%Q -> 0 < z -> (f ^ z < 1)%Q.
Proof.
  intros Hpos Hlt Hz.
  assert (Hinv : (1 < / f)%Q).
  { apply (Qmult_lt_l _ _ f Hpos).
    rewrite Qmult_1_r, Qmult_inv_r; [exact Hlt|].
    intro H0. rewrite H0 in Hpos. discriminate. }
  pose proof (Qpower_1_lt (/ f) z Hinv Hz) as H1.
  rewrite Qinv_power in H1.
  pose proof (Qpower_0_lt f z Hpos) as Hp.
  apply (Qmult_lt_l _ _ (f ^ z) Hp) in H1.
  rewrite Qmult_1_r, Qmult_inv_r in H1; [exact H1|].
  intro H0. rewrite H0 in Hp. discriminate.
Qed.

(** X11: a multiplier below one, which ValidateConfig lets through, switches the
    waiting off: from the second attempt number on the computed wait is
    zero. *)
Theorem calculateBackoff_zero_below_one (t : TelegramAPI) (n : Z) :
  2 <= n ->
  (0 < t.(config).(RetryBackoffFactor))%Q ->
  (t.(config).(RetryBackoffFactor) < 1)%Q ->
  0 <= t.(config).(RetryInitialBackoff) ->
  0 <= t.(config).(RetryMaxBackoff) ->
  calculateBackoff t n = 0.
Proof.
  intros Hn Hpos Hlt Hinit Hmax.
  pose proof (Qpower_0_lt _ (n - 1) Hpos) as Hp.
  pose proof (Qpower_below_one _ (n - 1) Hpos Hlt ltac:(lia)) as Hp1.
  assert (Hfl : Qfloor (RetryBackoffFactor (config t) ^ (n - 1)) = 0).
  { assert (0 <= Qfloor (RetryBackoffFactor (config t) ^ (n - 1))).
    { rewrite <- (Qfloor_Z 0). apply Qfloor_resp_le, Qlt_le_weak, Hp. }
    assert (Qfloor (RetryBackoffFactor (config t) ^ (n - 1)) < 1).
    { apply Z.lt_nge. intro Hge.
      pose proof (Qfloor_le (RetryBackoffFactor (config t) ^ (n - 1))) as Hle.
      assert (H1 : (1 <= RetryBackoffFactor (config t) ^ (n - 1))%Q).
      { eapply Qle_trans; [|exact Hle].
        change 1%Q with (inject_Z 1). rewrite <- Zle_Qle. exact Hge. }
      exact (Qlt_not_le _ _ Hp1 H1). }
    lia. }
  rewrite calculateBackoff_unfold.
  rewrite cappedBackoff_of_floor; rewrite ?Hfl; try lia;
    [|apply Qlt_le_weak, Hp].
  replace (Z.min (RetryMaxBackoff (config t))
             (RetryInitialBackoff (config t) * 0)) with 0 by lia.
  rewrite jitter_value by lia.
  destruct (Z.even n); reflexivity.
Qed.

Lemma calculateBackoff_zero_below_one_witness :
  calculateBackoff
    (clientWith 3 (1 # 2)) 2
  = 0.
Proof.
  apply calculateBackoff_zero_below_one.
  - lia.
  - reflexivity.
  - reflexivity.
  - vm_compute. discriminate.
  - vm_compute. discriminate.
Defined.

(** ** isRetryable on application failures *)

(** X12: the search for 403 comes first: an application failure whose code is
    403, or whose description mentions 403 anywhere, is never retried,
    whatever else code and description say. *)
Theorem isRetryable_403_wins (code : Z) (desc : string) :
  code = 403 \/ strings.Contains desc "403" = true ->
  isRetryable (apiError code desc) = false.
Proof.
  intro H. unfold apiError.
  assert (Hm : strings.Contains
                 ("telegram API error: " ++ strconv.Itoa code ++ " " ++ desc)
                 "telegram API error" = true)
    by apply (Contains_middle "" "telegram API error"
                (": " ++ strconv.Itoa code ++ " " ++ desc)).
  assert (H403 : strings.Contains
                   ("telegram API error: " ++ strconv.Itoa code ++ " " ++ desc)
                   "403" = true).
  { apply Contains_app_l. destruct H as [->|H].
    - apply (Contains_middle "" "403" (" " ++ desc)).
    - apply Contains_app_l, Contains_app_l. exact H. }
  unfold isRetryable, extractTelegramError.
  cbn [errors.As_netError implements_netError errors.Is GoError_eqb_sentinel
       orb Error].
  rewrite Hm, H403. reflexivity.
Qed.

Lemma isRetryable_403_wins_witness :
  isRetryable (apiError 503 "Service Unavailable (upstream said 403)") = false.
Proof.
  apply isRetryable_403_wins. right. reflexivity.
Defined.

Lemma isRetryable_api_codes_witness :
  isRetryable (apiError 503 "Service Unavailable")
  = (503 =? 429) || (503 =? 500) || (503 =? 502) || (503 =? 503)
    || (503 =? 504).
Proof.
  apply (isRetryable_api_codes 503 "Service Unavailable").
  - lia.
  - reflexivity.
Defined.

(** ** The breaker's settings and callbacks *)

Lemma same_settings_refl (cb : gobreaker.CircuitBreaker) : same_settings cb cb.
Proof. repeat split. Qed.

Lemma same_settings_trans (a b c : gobreaker.CircuitBreaker) :
  same_settings a b -> same_settings b c -> same_settings a c.
Proof.
  unfold same_settings.
  intros (H1 & H2 & H3 & H4 & H5 & H6) (K1 & K2 & K3 & K4 & K5 & K6).
  repeat split; congruence.
Qed.

Lemma setState_settings (cb : gobreaker.CircuitBreaker)
  (s : gobreaker.State) (now : Z) :
  same_settings (fst (gobreaker.setState cb s now)) cb.
Proof.
  unfold gobreaker.setState.
  destruct (gobreaker.State_eqb _ _); repeat split.
Qed.

Lemma currentState_settings (cb : gobreaker.CircuitBreaker) (now : Z) :
  same_settings (fst (gobreaker.currentState cb now)) cb.
Proof.
  unfold gobreaker.currentState.
  destruct (gobreaker.state cb);
    destruct (gobreaker.expiry cb) as [e|]; try destruct (e <? now);
    try apply setState_settings; repeat split.
Qed.

Lemma beforeRequest_settings (cb : gobreaker.CircuitBreaker) (now : Z) :
  same_settings (snd (fst (gobreaker.beforeRequest cb now))) cb.
Proof.
  unfold gobreaker.beforeRequest.
  pose proof (currentState_settings cb now) as H.
  destruct (gobreaker.currentState cb now) as [cb1 evs]. cbn [fst] in H.
  destruct (gobreaker.state cb1);
    try destruct (gobreaker.maxRequests cb1 <=? _); cbn [fst snd];
    try exact H;
    (eapply same_settings_trans; [|exact H]); repeat split.
Qed.

Lemma afterRequest_settings (cb : gobreaker.CircuitBreaker)
  (now before : Z) (success : bool) :
  same_settings (fst (gobreaker.afterRequest cb now before success)) cb.
Proof.
  unfold gobreaker.afterRequest.
  pose proof (currentState_settings cb now) as H.
  destruct (gobreaker.currentState cb now) as [cb1 evs]. cbn [fst] in H.
  destruct (negb (gobreaker.generation cb1 =? before)); [exact H|].
  assert (H2 : same_settings
                 (fst (if success then gobreaker.onSuccess cb1 now
                       else gobreaker.onFailure cb1 now)) cb1).
  { destruct success; unfold gobreaker.onSuccess, gobreaker.onFailure;
      destruct (gobreaker.state cb1);
      repeat match goal with
             | |- context [if ?c then _ else _] => destruct c
             end;
      first [ apply same_settings_refl
            | apply setState_settings
            | eapply same_settings_trans; [apply setState_settings|];
              repeat split
            | repeat split ]. }
  destruct (if success then gobreaker.onSuccess cb1 now
            else gobreaker.onFailure cb1 now) as [cb2 evs2].
  cbn [fst] in *. eapply same_settings_trans; eassumption.
Qed.

Lemma Execute_settings {R : Type} (cb : gobreaker.CircuitBreaker)
  (tBefore tAfter : Z) (req : unit -> (GoError + R) * list Event) :
  same_settings (snd (fst (gobreaker.Execute cb tBefore tAfter req))) cb.
Proof.
  unfold gobreaker.Execute.
  pose proof (beforeRequest_settings cb tBefore) as H.
  destruct (gobreaker.beforeRequest cb tBefore) as [[ge cb1] evs1].
  cbn [fst snd] in H.
  destruct (snd ge); [exact H|].
  destruct (req tt) as [res evs].
  pose proof (afterRequest_settings cb1 tAfter (fst ge)
                (gobreaker.isSuccessful res)) as H2.
  destruct (gobreaker.afterRequest cb1 tAfter (fst ge) _) as [cb2 evs2].
  cbn [fst snd] in *. eapply same_settings_trans; eassumption.
Qed.

Lemma strip_logs_app (a b : list Event) :
  strip_logs (a ++ b) = (strip_logs a ++ strip_logs b)%list.
Proof. apply filter_app. Qed.

Lemma netCalls_strip (tr : list Event) : netCalls tr = netCalls (strip_logs tr).
Proof.
  unfold netCalls, strip_logs. induction tr as [|e tr IH]; [reflexivity|].
  destruct e; cbn in *; auto.
Qed.

Lemma waits_strip (tr : list Event) : waits tr = waits (strip_logs tr).
Proof.
  unfold waits, strip_logs. induction tr as [|e tr IH]; [reflexivity|].
  destruct e; cbn in *; congruence.
Qed.

Lemma callback (a b : gobreaker.CircuitBreaker) :
  same_settings a b ->
  gobreaker.onStateChange b = logStateChange ->
  gobreaker.onStateChange a = logStateChange.
Proof. intros (_ & _ & _ & _ & _ & H) Hb. congruence. Qed.

Lemma setState_logs (cb : gobreaker.CircuitBreaker)
  (s : gobreaker.State) (now : Z) :
  gobreaker.onStateChange cb = logStateChange ->
  strip_logs (snd (gobreaker.setState cb s now)) = [].
Proof.
  intro H. unfold gobreaker.setState.
  destruct (gobreaker.State_eqb _ _); [reflexivity|].
  cbn [snd]. rewrite H. reflexivity.
Qed.

Lemma currentState_logs (cb : gobreaker.CircuitBreaker) (now : Z) :
  gobreaker.onStateChange cb = logStateChange ->
  strip_logs (snd (gobreaker.currentState cb now)) = [].
Proof.
  intro H. unfold gobreaker.currentState.
  destruct (gobreaker.state cb);
    destruct (gobreaker.expiry cb) as [e|]; try destruct (e <? now);
    try apply (setState_logs _ _ _ H); reflexivity.
Qed.

Lemma beforeRequest_logs (cb : gobreaker.CircuitBreaker) (now : Z) :
  gobreaker.onStateChange cb = logStateChange ->
  strip_logs (snd (gobreaker.beforeRequest cb now)) = [].
Proof.
  intro H. unfold gobreaker.beforeRequest.
  pose proof (currentState_logs cb now H) as H1.
  destruct (gobreaker.currentState cb now) as [cb1 evs]. cbn [snd] in H1.
  destruct (gobreaker.state cb1);
    try destruct (gobreaker.maxRequests cb1 <=? _); exact H1.
Qed.

Lemma afterRequest_logs (cb : gobreaker.CircuitBreaker)
  (now before : Z) (success : bool) :
  gobreaker.onStateChange cb = logStateChange ->
  strip_logs (snd (gobreaker.afterRequest cb now before success)) = [].
Proof.
  intro H. unfold gobreaker.afterRequest.
  pose proof (currentState_logs cb now H) as H1.
  pose proof (callback _ _ (currentState_settings cb now) H) as Hcb1.
  destruct (gobreaker.currentState cb now) as [cb1 evs].
  cbn [fst snd] in *.
  destruct (negb (gobreaker.generation cb1 =? before)); [exact H1|].
  assert (H2 : strip_logs
                 (snd (if success then gobreaker.onSuccess cb1 now
                       else gobreaker.onFailure cb1 now)) = []).
  { destruct success; unfold gobreaker.onSuccess, gobreaker.onFailure;
      destruct (gobreaker.state cb1);
      repeat match goal with
             | |- context [if ?c then _ else _] => destruct c
             end;
      first [ reflexivity | apply setState_logs; exact Hcb1 ]. }
  destruct (if success then gobreaker.onSuccess cb1 now
            else gobreaker.onFailure cb1 now) as [cb2 evs2].
  cbn [snd] in *. rewrite strip_logs_app, H1, H2. reflexivity.
Qed.

(** What [Execute] adds to the trace of the request is log records only. *)
Lemma Execute_logs {R : Type} (cb : gobreaker.CircuitBreaker)
  (tBefore tAfter : Z) (req : unit -> (GoError + R) * list Event) :
  gobreaker.onStateChange cb = logStateChange ->
  strip_logs (snd (gobreaker.Execute cb tBefore tAfter req)) = []
  \/ strip_logs (snd (gobreaker.Execute cb tBefore tAfter req))
     = strip_logs (snd (req tt)).
Proof.
  intro H. unfold gobreaker.Execute.
  pose proof (beforeRequest_logs cb tBefore H) as H1.
  pose proof (callback _ _ (beforeRequest_settings cb tBefore) H) as Hcb1.
  destruct (gobreaker.beforeRequest cb tBefore) as [[ge cb1] evs1].
  cbn [fst snd] in *.
  destruct (snd ge); [left; exact H1|].
  destruct (req tt) as [res evs].
  pose proof (afterRequest_logs cb1 tAfter (fst ge)
                (gobreaker.isSuccessful res) Hcb1) as H2.
  destruct (gobreaker.afterRequest cb1 tAfter (fst ge) _) as [cb2 evs2].
  cbn [snd] in *. right.
  rewrite !strip_logs_app, H1, H2, app_nil_r. reflexivity.
Qed.

(** ** One attempt *)

Lemma executeRequest_strip (t : TelegramAPI) (rt : RoundTrip) (method : string) :
  strip_logs (snd (executeRequest t rt method)) = []
  \/ strip_logs (snd (executeRequest t rt method))
     = [NetCall (requestURL t method)].
Proof.
  destruct rt as [e|c|c|e|e|s h b]; cbn; auto.
  unfold executeRequest. cbn [OK ErrorCode Description Result].
  destruct (negb (ok b)); [|right; reflexivity].
  destruct ((error_code b =? 429) && negb (is_empty h))%bool;
    [destruct (strconv.Atoi h)|]; right; reflexivity.
Qed.

Lemma sendMessageOnce_settings (t : TelegramAPI) (w : World) (attempt : Z) :
  same_settings (snd (fst (sendMessageOnce t w attempt))) t.(breaker).
Proof.
  unfold sendMessageOnce.
  destruct (limiterWait w attempt); [apply same_settings_refl|].
  pose proof (Execute_settings (breaker t) (fst (clock w attempt))
                (snd (clock w attempt))
                (fun _ => executeRequest t (roundTrip w attempt) "sendMessage"))
    as H.
  destruct (gobreaker.Execute _ _ _ _) as [[resp cb] evs]. cbn [fst snd] in H.
  destruct resp as [e|r]; [exact H|].
  destruct (negb (OK r)); [exact H|].
  destruct (unmarshalResult w (Result r)); exact H.
Qed.

Lemma sendMessageOnce_strip (t : TelegramAPI) (w : World) (attempt : Z) :
  logs_transitions t ->
  strip_logs (snd (sendMessageOnce t w attempt)) = []
  \/ strip_logs (snd (sendMessageOnce t w attempt))
     = [NetCall (requestURL t "sendMessage")].
Proof.
  intro Hlog. unfold sendMessageOnce.
  destruct (limiterWait w attempt); [left; reflexivity|].
  pose proof (Execute_logs (breaker t) (fst (clock w attempt))
                (snd (clock w attempt))
                (fun _ => executeRequest t (roundTrip w attempt) "sendMessage")
                Hlog) as H.
  destruct (gobreaker.Execute _ _ _ _) as [[resp cb] evs]. cbn [fst snd] in H.
  assert (H' : strip_logs evs = []
               \/ strip_logs evs = [NetCall (requestURL t "sendMessage")]).
  { destruct H as [H|H]; [left; exact H|]. rewrite H.
    apply executeRequest_strip. }
  destruct resp as [e|r]; [exact H'|].
  destruct (negb (OK r)); [exact H'|].
  destruct (unmarshalResult w (Result r)); exact H'.
Qed.

(** One attempt makes at most one network call and never waits. *)
Lemma sendMessageOnce_counts (t : TelegramAPI) (w : World) (attempt : Z) :
  logs_transitions t ->
  (netCalls (snd (sendMessageOnce t w attempt)) <= 1)%nat
  /\ waits (snd (sendMessageOnce t w attempt)) = [].
Proof.
  intro Hlog. rewrite netCalls_strip, waits_strip.
  destruct (sendMessageOnce_strip t w attempt Hlog) as [H|H]; rewrite H;
    cbn; split; auto.
Qed.

Lemma valid_config_MaxRetries (cfg : Config) :
  ValidateConfig cfg = None -> 0 <= cfg.(MaxRetries).
Proof.
  unfold ValidateConfig.
  repeat match goal with
         | |- context [if ?c then _ else _] =>
             lazymatch c with
             | MaxRetries cfg <? 0 => fail
             | _ => destruct c; [discriminate|]
             end
         end.
  destruct (Z.ltb_spec (MaxRetries cfg) 0); [discriminate | lia].
Qed.

(** ** SendMessage as a whole *)

Lemma ValidateConfig_message (cfg : Config) (e : GoError) :
  ValidateConfig cfg = Some e ->
  exists msg, e = errorString msg /\ In msg validationMessages.
Proof.
  unfold ValidateConfig, validationMessages, errors.New.
  repeat match goal with
         | |- context [if ?c then _ else _] => destruct c
         end;
    intro H; try discriminate; injection H as <-;
    eexists; (split; [reflexivity|]); cbn; tauto.
Qed.

(** X15: with a configuration that ValidateConfig rejects, SendMessage does
    nothing: no limiter wait, no breaker access, no network call, no log
    record.  It returns one of the nine validation messages behind the
    prefix "config validation failed: ", and the cause can be unwrapped. *)
Theorem SendMessage_rejects_invalid_config
  (errors_As : GoError -> AsResult TelegramResponse) (w : World)
  (t : TelegramAPI) (e : GoError) :
  ValidateConfig t.(config) = Some e ->
  exists msg,
    In msg validationMessages
    /\ e = errorString msg
    /\ SendMessage_with errors_As w t
       = (Returned (inl (wrapError ("config validation failed: " ++ msg) e)),
          t, []).
Proof.
  intro H. destruct (ValidateConfig_message _ _ H) as (msg & -> & Hin).
  exists msg. split; [exact Hin|]. split; [reflexivity|].
  unfold SendMessage_with. rewrite H. reflexivity.
Qed.

Lemma SendMessage_rejects_invalid_config_witness :
  exists msg,
    In msg validationMessages
    /\ errorString "MAX_RETRIES must be non-negative" = errorString msg
    /\ SendMessage_with As_TelegramResponse throttled (clientWith (-1) 2)
       = (Returned
            (inl (wrapError ("config validation failed: " ++ msg)
                    (errorString "MAX_RETRIES must be non-negative"))),
          clientWith (-1) 2, []).
Proof.
  apply (SendMessage_rejects_invalid_config As_TelegramResponse throttled
           (clientWith (-1) 2)).
  reflexivity.
Defined.

(** X16: with no retries configured every failure of the single attempt, a
    terminal one included, is returned as "max retries exceeded: ..."; the
    error is not classified and no "non-retryable error" record is
    written. *)
Theorem SendMessage_without_retries
  (errors_As : GoError -> AsResult TelegramResponse) (w : World)
  (t : TelegramAPI) (e : GoError) :
  ValidateConfig t.(config) = None ->
  t.(config).(MaxRetries) = 0 ->
  fst (fst (sendMessageOnce t w 0)) = inl e ->
  fst (fst (SendMessage_with errors_As w t))
  = Returned (inl (fmt.Errorf_w "max retries exceeded: " e))
  /\ snd (SendMessage_with errors_As w t) = snd (sendMessageOnce t w 0).
Proof.
  intros Hcfg Hmax Hsend.
  unfold SendMessage_with. rewrite Hcfg, Hmax.
  cbn [Z.to_nat retryLoop]. rewrite Hmax. cbn [Z.leb Z.compare negb Z.eqb].
  destruct (sendMessageOnce t w 0) as [[r cb] evs].
  cbn [fst snd] in *. subst r. split; reflexivity.
Qed.

Lemma SendMessage_without_retries_witness :
  fst (fst (SendMessage_with As_TelegramResponse
              (steadyWorld 0 None (apiFailure 401 "" "Unauthorized"))
              (clientWith 0 2)))
  = Returned (inl (fmt.Errorf_w "max retries exceeded: "
                     (apiError 401 "Unauthorized")))
  /\ snd (SendMessage_with As_TelegramResponse
            (steadyWorld 0 None (apiFailure 401 "" "Unauthorized"))
            (clientWith 0 2))
     = snd (sendMessageOnce (clientWith 0 2)
              (steadyWorld 0 None (apiFailure 401 "" "Unauthorized")) 0).
Proof.
  apply (SendMessage_without_retries As_TelegramResponse
           (steadyWorld 0 None (apiFailure 401 "" "Unauthorized"))
           (clientWith 0 2) (apiError 401 "Unauthorized")).
  - reflexivity.
  - reflexivity.
  - vm_compute. reflexivity.
Defined.

(** X17: SendMessage never gets past its first attempt.  With a valid
    configuration its trace is the trace of one [sendMessageOnce], followed
    at most by the "non-retryable error" record; it completes no wait, and
    the client it leaves behind is the one that attempt left. *)
Theorem SendMessage_stops_after_one_attempt (w : World) (t : TelegramAPI) :
  ValidateConfig t.(config) = None ->
  snd (fst (SendMessage w t))
  = with_breaker t (snd (fst (sendMessageOnce t w 0)))
  /\ (snd (SendMessage w t) = snd (sendMessageOnce t w 0)
      \/ exists e,
           fst (fst (sendMessageOnce t w 0)) = inl e
           /\ snd (SendMessage w t)
              = (snd (sendMessageOnce t w 0) ++ [nonRetryableRecord e 0])%list).
Proof.
  intro Hcfg. pose proof (valid_config_MaxRetries _ Hcfg) as Hmax.
  unfold SendMessage, SendMessage_with. rewrite Hcfg. cbn [retryLoop].
  replace (0 <=? MaxRetries (config t)) with true
    by (symmetry; apply Z.leb_le; lia).
  cbn [negb].
  destruct (sendMessageOnce t w 0) as [[r cb] evs]. cbn [fst snd].
  destruct r as [e|m]; [|split; [reflexivity | left; reflexivity]].
  destruct (0 =? MaxRetries (config t));
    [split; [reflexivity | left; reflexivity]|].
  destruct (isRetryable e); cbn [negb].
  - split; [reflexivity | left; reflexivity].
  - split; [reflexivity|]. right. exists e. split; reflexivity.
Qed.

Lemma SendMessage_stops_after_one_attempt_witness :
  snd (fst (SendMessage throttled defaultAPI))
  = with_breaker defaultAPI (snd (fst (sendMessageOnce defaultAPI throttled 0)))
  /\ (snd (SendMessage throttled defaultAPI)
      = snd (sendMessageOnce defaultAPI throttled 0)
      \/ exists e,
           fst (fst (sendMessageOnce defaultAPI throttled 0)) = inl e
           /\ snd (SendMessage throttled defaultAPI)
              = (snd (sendMessageOnce defaultAPI throttled 0)
                 ++ [nonRetryableRecord e 0])%list).
Proof.
  apply (SendMessage_stops_after_one_attempt throttled defaultAPI).
  reflexivity.
Defined.

(** ** Counting in traces *)

Lemma netCalls_app (a b : list Event) :
  netCalls (a ++ b) = (netCalls a + netCalls b)%nat.
Proof. unfold netCalls. rewrite filter_app, length_app. reflexivity. Qed.

Lemma waits_app (a b : list Event) : waits (a ++ b) = (waits a ++ waits b)%list.
Proof. unfold waits. apply flat_map_app. Qed.

Lemma netCalls_Log (level msg : string) (attrs : list (string * Value))
  (tr : list Event) :
  netCalls (Log level msg attrs :: tr) = netCalls tr.
Proof. reflexivity. Qed.

Lemma waits_Log (level msg : string) (attrs : list (string * Value))
  (tr : list Event) :
  waits (Log level msg attrs :: tr) = waits tr.
Proof. reflexivity. Qed.

Lemma netCalls_Slept (d : Z) (tr : list Event) :
  netCalls (Slept d :: tr) = netCalls tr.
Proof. reflexivity. Qed.

Lemma waits_Slept (d : Z) (tr : list Event) :
  waits (Slept d :: tr) = d :: waits tr.
Proof. reflexivity. Qed.

Lemma netCalls_nil : netCalls [] = 0%nat.
Proof. reflexivity. Qed.

Lemma waits_nil : waits [] = [].
Proof. reflexivity. Qed.

Create Rewrite HintDb trace.

#[local] Hint Rewrite netCalls_app waits_app netCalls_Log waits_Log
  netCalls_Slept waits_Slept netCalls_nil waits_nil length_app : trace.

Ltac trace_count := autorewrite with trace.

(** ** The loop, whatever [errors.As] does *)

Section Loop.

Variable errors_As : GoError -> AsResult TelegramResponse.
Variable w : World.

Lemma retryLoop_keeps (fuel : nat) :
  forall (t : TelegramAPI) (attempt : Z) (err : option GoError),
    (snd (fst (retryLoop errors_As w fuel t attempt err))).(config) = t.(config)
    /\ same_settings
         (snd (fst (retryLoop errors_As w fuel t attempt err))).(breaker)
         t.(breaker).
Proof.
  induction fuel as [|fuel IH]; intros t attempt err.
  - cbn. split; [reflexivity | apply same_settings_refl].
  - cbn [retryLoop].
    destruct (negb (attempt <=? MaxRetries (config t)));
      [cbn; split; [reflexivity | apply same_settings_refl]|].
    pose proof (sendMessageOnce_settings t w attempt) as Hs.
    destruct (sendMessageOnce t w attempt) as [[r cb] evs].
    cbn [fst snd] in Hs.
    destruct r as [e|m]; [|cbn; auto].
    destruct (attempt =? MaxRetries (config t)); [cbn; auto|].
    destruct (negb (isRetryable e)); [cbn; auto|].
    destruct (errors_As e) as [msg|found|]; [cbn; auto| |].
    + destruct (RetryAfter found >? 0);
        (destruct (ctxDone w attempt); [cbn; auto|]);
        match goal with
        | |- context [retryLoop errors_As w fuel ?t1 ?a ?e1] =>
            destruct (IH t1 a e1) as [Hc Hb];
            destruct (retryLoop errors_As w fuel t1 a e1) as [[o t2] rest]
        end;
        cbn [fst snd] in *; (split; [exact Hc|]);
        eapply same_settings_trans; eassumption.
    + destruct (ctxDone w attempt); [cbn; auto|].
      match goal with
      | |- context [retryLoop errors_As w fuel ?t1 ?a ?e1] =>
          destruct (IH t1 a e1) as [Hc Hb];
          destruct (retryLoop errors_As w fuel t1 a e1) as [[o t2] rest]
      end.
      cbn [fst snd] in *. split; [exact Hc|].
      eapply same_settings_trans; eassumption.
Qed.

Lemma retryLoop_budget (fuel : nat) :
  forall (t : TelegramAPI) (attempt : Z) (err : option GoError),
    logs_transitions t ->
    Z.of_nat (S fuel) = t.(config).(MaxRetries) - attempt + 1 ->
    (netCalls (snd (retryLoop errors_As w (S fuel) t attempt err)) <= S fuel)%nat
    /\ (List.length (waits (snd (retryLoop errors_As w (S fuel) t attempt err)))
        <= fuel)%nat.
Proof.
  induction fuel as [|fuel IH]; intros t attempt err Hlog Hfuel.
  - (* the last permitted attempt *)
    cbn [retryLoop].
    replace (attempt <=? MaxRetries (config t)) with true
      by (symmetry; apply Z.leb_le; lia).
    replace (attempt =? MaxRetries (config t)) with true
      by (symmetry; apply Z.eqb_eq; lia).
    cbn [negb].
    destruct (sendMessageOnce_counts t w attempt Hlog) as [Hn Hw].
    destruct (sendMessageOnce t w attempt) as [[r cb] evs].
    cbn [fst snd] in *.
    destruct r; cbn [snd]; rewrite Hw; cbn; auto.
  - remember (S fuel) as f eqn:Hf.
    cbn [retryLoop].
    replace (attempt <=? MaxRetries (config t)) with true
      by (symmetry; apply Z.leb_le; lia).
    replace (attempt =? MaxRetries (config t)) with false
      by (symmetry; apply Z.eqb_neq; lia).
    cbn [negb].
    destruct (sendMessageOnce_counts t w attempt Hlog) as [Hn Hw].
    pose proof (sendMessageOnce_settings t w attempt) as Hs.
    destruct (sendMessageOnce t w attempt) as [[r cb] evs].
    cbn [fst snd] in *.
    assert (Hlog1 : logs_transitions (with_breaker t cb))
      by (unfold logs_transitions; cbn; eapply callback; eassumption).
    assert (Hnext : Z.of_nat f
                    = MaxRetries (config (with_breaker t cb))
                      - (attempt + 1) + 1)
      by (cbn; lia).
    destruct r as [e|m]; [|cbn [snd]; rewrite Hw; cbn; lia].
    destruct (negb (isRetryable e));
      [cbn [snd]; trace_count; rewrite Hw; cbn; lia|].
    destruct (errors_As e) as [msg|found|];
      [cbn [snd]; rewrite Hw; cbn; lia| |].
    + subst f.
      destruct (RetryAfter found >? 0);
        (destruct (ctxDone w attempt);
         [cbn [snd]; trace_count; rewrite Hw; cbn; lia|]);
        match goal with
        | |- context [retryLoop errors_As w (S fuel) ?t1 ?a ?e1] =>
            destruct (IH t1 a e1 Hlog1 Hnext) as [Hn2 Hw2];
            destruct (retryLoop errors_As w (S fuel) t1 a e1) as [[o t2] rest]
        end;
        cbn [fst snd] in *; trace_count; rewrite Hw; cbn [length app]; lia.
    + subst f.
      destruct (ctxDone w attempt);
        [cbn [snd]; trace_count; rewrite Hw; cbn; lia|].
      match goal with
      | |- context [retryLoop errors_As w (S fuel) ?t1 ?a ?e1] =>
          destruct (IH t1 a e1 Hlog1 Hnext) as [Hn2 Hw2];
          destruct (retryLoop errors_As w (S fuel) t1 a e1) as [[o t2] rest]
      end.
      cbn [fst snd] in *. trace_count. rewrite Hw. cbn [length app]. lia.
Qed.

End Loop.

(** X20: SendMessage leaves the configuration of the client alone, and of the
    breaker it changes only the moving part: name, probe limit, interval,
    timeout, trip condition and callback are those it was built with. *)
Theorem SendMessage_keeps_settings
  (errors_As : GoError -> AsResult TelegramResponse) (w : World)
  (t : TelegramAPI) :
  (snd (fst (SendMessage_with errors_As w t))).(config) = t.(config)
  /\ same_settings (snd (fst (SendMessage_with errors_As w t))).(breaker)
       t.(breaker).
Proof.
  unfold SendMessage_with.
  destruct (ValidateConfig (config t)).
  - cbn. split; [reflexivity | apply same_settings_refl].
  - apply retryLoop_keeps.
Qed.

(** X21: the retry budget holds whatever the lookup in the error chain does: a
    call of SendMessage on a validated client starts at most MaxRetries + 1
    round trips and completes at most MaxRetries waits. *)
Theorem SendMessage_retry_budget
  (errors_As : GoError -> AsResult TelegramResponse) (w : World)
  (t : TelegramAPI) :
  ValidateConfig t.(config) = None ->
  logs_transitions t ->
  Z.of_nat (netCalls (snd (SendMessage_with errors_As w t)))
  <= t.(config).(MaxRetries) + 1
  /\ Z.of_nat (List.length (waits (snd (SendMessage_with errors_As w t))))
     <= t.(config).(MaxRetries).
Proof.
  intros Hcfg Hlog. pose proof (valid_config_MaxRetries _ Hcfg) as Hmax.
  unfold SendMessage_with. rewrite Hcfg.
  destruct (retryLoop_budget errors_As w (Z.to_nat (MaxRetries (config t)))
              t 0 None Hlog ltac:(lia)) as [Hn Hw].
  lia.
Qed.

Lemma SendMessage_retry_budget_witness :
  Z.of_nat (netCalls (snd (SendMessage_with As_nothing throttled defaultAPI)))
  <= 3 + 1
  /\ Z.of_nat (List.length
                 (waits (snd (SendMessage_with As_nothing throttled defaultAPI))))
     <= 3.
Proof.
  apply (SendMessage_retry_budget As_nothing throttled defaultAPI).
  - reflexivity.
  - reflexivity.
Defined.

(** X22: when the first attempt is admitted, answered with a success envelope
    and its result decodes, SendMessage returns that result after one round
    trip, without waiting and without raising the breaker's failure
    count. *)
Theorem SendMessage_first_success
  (errors_As : GoError -> AsResult TelegramResponse) (w : World)
  (t : TelegramAPI) (status : Z) (hdr : string) (body : Envelope)
  (m : MessageResult) :
  ValidateConfig t.(config) = None ->
  logs_transitions t ->
  w.(limiterWait) 0 = None ->
  snd (fst (fst (gobreaker.beforeRequest t.(breaker) (fst (w.(clock) 0)))))
  = None ->
  w.(roundTrip) 0 = Responds status hdr body ->
  body.(ok) = true ->
  w.(unmarshalResult) body.(result) = inr m ->
  fst (fst (SendMessage_with errors_As w t)) = Returned (inr m)
  /\ netCalls (snd (SendMessage_with errors_As w t)) = 1%nat
  /\ waits (snd (SendMessage_with errors_As w t)) = []
  /\ (failureCount (snd (fst (SendMessage_with errors_As w t))).(breaker)
      = failureCount t.(breaker)
      \/ failureCount (snd (fst (SendMessage_with errors_As w t))).(breaker)
         = 0).
Proof.
  intros Hcfg Hlog Hlim Hadm Hrt Hok Hres.
  pose proof (valid_config_MaxRetries _ Hcfg) as Hmax.
  unfold SendMessage_with. rewrite Hcfg. cbn [retryLoop].
  replace (0 <=? MaxRetries (config t)) with true
    by (symmetry; apply Z.leb_le; lia).
  cbn [negb].
  unfold sendMessageOnce. rewrite Hlim, Hrt.
  pose proof (Execute_success_failureCount (breaker t) (fst (clock w 0))
                (snd (clock w 0))
                (fun _ => executeRequest t (Responds status hdr body)
                            "sendMessage")) as Hfc.
  pose proof (Execute_logs (breaker t) (fst (clock w 0)) (snd (clock w 0))
                (fun _ => executeRequest t (Responds status hdr body)
                            "sendMessage") Hlog) as Hev.
  revert Hfc Hev. unfold gobreaker.Execute.
  destruct (gobreaker.beforeRequest (breaker t) (fst (clock w 0)))
    as [[ge cb1] evs1].
  cbn [fst snd] in Hadm. rewrite Hadm.
  unfold executeRequest. cbn [OK ErrorCode Description Result].
  rewrite Hok. cbn [negb].
  destruct (gobreaker.afterRequest cb1 _ _ _) as [cb2 evs2].
  cbn [fst snd OK Result negb]. rewrite Hres. cbn [fst snd breaker with_breaker].
  intros Hfc Hev.
  split; [reflexivity|].
  rewrite netCalls_strip, waits_strip.
  destruct Hev as [Hev|Hev].
  - exfalso. rewrite !strip_logs_app in Hev.
    apply app_eq_nil in Hev as [_ Hev]. discriminate.
  - rewrite Hev. cbn. split; [reflexivity|]. split; [reflexivity|].
    apply Hfc. reflexivity.
Qed.

Lemma SendMessage_first_success_witness :
  fst (fst (SendMessage_with As_TelegramResponse
              (steadyWorld 0 None apiSuccess) defaultAPI))
  = Returned (inr {| MessageID := 1 |})
  /\ netCalls (snd (SendMessage_with As_TelegramResponse
                      (steadyWorld 0 None apiSuccess) defaultAPI)) = 1%nat
  /\ waits (snd (SendMessage_with As_TelegramResponse
                   (steadyWorld 0 None apiSuccess) defaultAPI)) = []
  /\ (failureCount
        (snd (fst (SendMessage_with As_TelegramResponse
                     (steadyWorld 0 None apiSuccess) defaultAPI))).(breaker)
      = failureCount defaultAPI.(breaker)
      \/ failureCount
           (snd (fst (SendMessage_with As_TelegramResponse
                        (steadyWorld 0 None apiSuccess) defaultAPI))).(breaker)
         = 0).
Proof.
  apply (SendMessage_first_success As_TelegramResponse
           (steadyWorld 0 None apiSuccess) defaultAPI 200 ""
           {| ok := true; result := "{}"; error_code := 0; description := "" |}
           {| MessageID := 1 |}).
  - reflexivity.
  - reflexivity.
  - reflexivity.
  - reflexivity.
  - reflexivity.
  - reflexivity.
  - reflexivity.
Defined.

(** X23: when the caller cancels while the limiter is waiting and attempts
    remain, SendMessage returns "rate limit exceeded: context canceled", an
    error in which [errors.Is] finds [context.Canceled]; the breaker is not
    touched, no network call is made, and the failure is logged once as
    non-retryable. *)
Theorem SendMessage_cancelled_at_the_limiter
  (errors_As : GoError -> AsResult TelegramResponse) (w : World)
  (t : TelegramAPI) :
  ValidateConfig t.(config) = None ->
  0 < t.(config).(MaxRetries) ->
  w.(limiterWait) 0 = Some Canceled ->
  let err := wrapError "rate limit exceeded: context canceled" Canceled in
  SendMessage_with errors_As w t
  = (Returned (inl err), t, [nonRetryableRecord err 0])
  /\ errors.Is err Canceled = true.
Proof.
  intros Hcfg Hmax Hlim err.
  split; [|reflexivity].
  unfold SendMessage_with. first_iteration Hcfg.
  unfold sendMessageOnce. rewrite Hlim. cbn.
  destruct t as [cfg cb]. reflexivity.
Qed.

Lemma SendMessage_cancelled_at_the_limiter_witness :
  let err := wrapError "rate limit exceeded: context canceled" Canceled in
  SendMessage_with As_TelegramResponse
    (steadyWorld 0 (Some Canceled) apiSuccess) defaultAPI
  = (Returned (inl err), defaultAPI, [nonRetryableRecord err 0])
  /\ errors.Is err Canceled = true.
Proof.
  apply (SendMessage_cancelled_at_the_limiter As_TelegramResponse
           (steadyWorld 0 (Some Canceled) apiSuccess) defaultAPI).
  - reflexivity.
  - reflexivity.
  - reflexivity.
Defined.

(** ** From failures to the open state *)

Lemma readyToTrip_bool (counts : gobreaker.Counts) :
  readyToTrip counts
  = (5 <? counts.(gobreaker.Requests))
    && (counts.(gobreaker.Requests) <=? 2 * counts.(gobreaker.TotalFailures)).
Proof.
  unfold readyToTrip, int_to_float64.
  destruct counts as [r s f cs cf].
  cbn [gobreaker.Requests gobreaker.TotalFailures].
  rewrite Z.gtb_ltb.
  destruct (Z.ltb_spec 5 r) as [Hr|Hr]; [|reflexivity]. cbn [andb].
  destruct r as [|p|p]; try lia.
  unfold Qle_bool, Qdiv, Qinv, Qmult, inject_Z. cbn [Qnum Qden].
  destruct (Z.leb_spec (Z.pos p) (2 * f)) as [H|H];
    [apply Z.leb_le | apply Z.leb_gt]; lia.
Qed.

Lemma currentState_closed_window (cb : gobreaker.CircuitBreaker) (now : Z) :
  cb.(gobreaker.state) = gobreaker.StateClosed ->
  window_open cb now ->
  gobreaker.currentState cb now = (cb, []).
Proof.
  intros Hst Hwin. unfold gobreaker.currentState, window_open in *.
  rewrite Hst. destruct (gobreaker.expiry cb) as [e|]; [|reflexivity].
  replace (e <? now) with false by (symmetry; apply Z.ltb_ge; lia).
  reflexivity.
Qed.

(** X24: a round trip that breaks off, made through a closed breaker whose
    window is running, is counted as one request and one failure; the
    breaker opens with it exactly when that makes at least six requests of
    which at least half failed, and then stays open for its timeout. *)
Theorem transport_failure_trips
  (t : TelegramAPI) (w : World) (attempt : Z) :
  let cb := t.(breaker) in
  let cb' := snd (fst (sendMessageOnce t w attempt)) in
  let requests := cb.(gobreaker.counts).(gobreaker.Requests) in
  let failures := cb.(gobreaker.counts).(gobreaker.TotalFailures) in
  let tripped := (5 <=? requests) && (requests + 1 <=? 2 * (failures + 1)) in
  w.(limiterWait) attempt = None ->
  is_response (w.(roundTrip) attempt) = false ->
  cb.(gobreaker.readyToTrip) = readyToTrip ->
  cb.(gobreaker.state) = gobreaker.StateClosed ->
  window_open cb (fst (w.(clock) attempt)) ->
  window_open cb (snd (w.(clock) attempt)) ->
  0 <= requests < 2 ^ 32 - 1 ->
  0 <= failures < 2 ^ 32 - 1 ->
  cb'.(gobreaker.state)
  = (if tripped then gobreaker.StateOpen else gobreaker.StateClosed)
  /\ (tripped = false ->
      cb'.(gobreaker.counts).(gobreaker.Requests) = requests + 1
      /\ failureCount cb' = failures + 1)
  /\ (tripped = true ->
      cb'.(gobreaker.expiry)
      = Some (snd (w.(clock) attempt) + cb.(gobreaker.timeout))).
Proof.
  intros cb cb' requests failures tripped Hlim Hrt Htrip Hst Hw1 Hw2 Hr Hf.
  subst cb'. unfold sendMessageOnce. rewrite Hlim.
  assert (Hreq : exists e evs,
             executeRequest t (roundTrip w attempt) "sendMessage"
             = (inl e, evs)).
  { destruct (roundTrip w attempt); try discriminate;
      cbn; eexists; eexists; reflexivity. }
  destruct Hreq as (e & evs & Hreq).
  unfold gobreaker.Execute, gobreaker.beforeRequest.
  fold cb. rewrite (currentState_closed_window cb _ Hst Hw1).
  rewrite Hst. cbn [fst snd]. rewrite Hreq.
  set (cb1 := gobreaker.with_counts cb
                (gobreaker.Counts_onRequest (gobreaker.counts cb))).
  unfold gobreaker.afterRequest.
  rewrite (currentState_closed_window cb1 (snd (clock w attempt)) Hst Hw2).
  cbn [gobreaker.isSuccessful].
  change (gobreaker.generation cb1) with (gobreaker.generation cb).
  rewrite Z.eqb_refl. cbn [negb].
  unfold gobreaker.onFailure.
  change (gobreaker.state cb1) with (gobreaker.state cb). rewrite Hst.
  cbn [gobreaker.with_counts gobreaker.counts gobreaker.readyToTrip].
  change (gobreaker.readyToTrip cb1) with (gobreaker.readyToTrip cb).
  rewrite Htrip, readyToTrip_bool.
  cbn [cb1 gobreaker.with_counts gobreaker.counts
       gobreaker.Counts_onFailure gobreaker.Counts_onRequest
       gobreaker.Requests gobreaker.TotalFailures].
  fold requests failures.
  unfold gobreaker.wrap32. rewrite !Z.mod_small by lia.
  assert (Heq : (5 <? requests + 1) && (requests + 1 <=? 2 * (failures + 1))
                = tripped).
  { unfold tripped. f_equal.
    destruct (Z.ltb_spec 5 (requests + 1)), (Z.leb_spec 5 requests);
      try reflexivity; lia. }
  rewrite Heq. subst cb1. destruct tripped.
  - unfold gobreaker.setState.
    cbn [gobreaker.with_counts gobreaker.state]. rewrite Hst.
    cbn. split; [reflexivity|].
    split; [intro H; discriminate | intros _; reflexivity].
  - unfold failureCount. cbn. split; [exact Hst|].
    split; [intros _ | intro H; discriminate].
    unfold gobreaker.wrap32, requests, failures in *.
    rewrite !Z.mod_small by lia. split; reflexivity.
Qed.

Lemma transport_failure_trips_witness :
  let t := afterSends 5 (steadyWorld Second None connectionRefused) defaultAPI in
  let w := steadyWorld Second None connectionRefused in
  let cb := t.(breaker) in
  let cb' := snd (fst (sendMessageOnce t w 0)) in
  let requests := cb.(gobreaker.counts).(gobreaker.Requests) in
  let failures := cb.(gobreaker.counts).(gobreaker.TotalFailures) in
  let tripped := (5 <=? requests) && (requests + 1 <=? 2 * (failures + 1)) in
  cb'.(gobreaker.state)
  = (if tripped then gobreaker.StateOpen else gobreaker.StateClosed)
  /\ (tripped = false ->
      cb'.(gobreaker.counts).(gobreaker.Requests) = requests + 1
      /\ failureCount cb' = failures + 1)
  /\ (tripped = true ->
      cb'.(gobreaker.expiry)
      = Some (snd (w.(clock) 0) + cb.(gobreaker.timeout))).
Proof.
  apply (transport_failure_trips
           (afterSends 5 (steadyWorld Second None connectionRefused) defaultAPI)
           (steadyWorld Second None connectionRefused) 0).
  - reflexivity.
  - reflexivity.
  - vm_compute. reflexivity.
  - vm_compute. reflexivity.
  - vm_compute. discriminate.
  - vm_compute. discriminate.
  - vm_compute. split; [discriminate | reflexivity].
  - vm_compute. split; [discriminate | reflexivity].
Defined.

(** ** extractTelegramError *)

(** X14: the envelope rebuilt from an error text is a stand-in: it is a failure
    with code 403, 429 or 500 and a fixed description, and it never carries
    a retry-after hint or a result. *)
Theorem extractTelegramError_is_a_stand_in
  (err : GoError) (r : TelegramResponse) :
  extractTelegramError err = Some r ->
  r.(OK) = false
  /\ r.(RetryAfter) = 0
  /\ r.(Result) = ""
  /\ ((r.(ErrorCode) = 403 /\ r.(Description) = "Forbidden")
      \/ (r.(ErrorCode) = 429 /\ r.(Description) = "Too Many Requests")
      \/ (r.(ErrorCode) = 500 /\ r.(Description) = "Server Error"))
  /\ strings.Contains (Error err) "telegram API error" = true.
Proof.
  unfold extractTelegramError.
  destruct (strings.Contains (Error err) "telegram API error");
    [|discriminate].
  destruct (strings.Contains (Error err) "403").
  { intro H. injection H as <-. cbn. tauto. }
  destruct (strings.Contains (Error err) "429").
  { intro H. injection H as <-. cbn. tauto. }
  destruct (strings.Contains (Error err) "500"
            || strings.Contains (Error err) "502"
            || strings.Contains (Error err) "503"
            || strings.Contains (Error err) "504")%bool; [|discriminate].
  intro H. injection H as <-. cbn. tauto.
Qed.

Lemma extractTelegramError_is_a_stand_in_witness :
  false = false
  /\ 0 = 0
  /\ "" = ""
  /\ ((500 = 403 /\ "Server Error" = "Forbidden")
      \/ (500 = 429 /\ "Server Error" = "Too Many Requests")
      \/ (500 = 500 /\ "Server Error" = "Server Error"))
  /\ strings.Contains (Error (apiError 502 "Bad Gateway")) "telegram API error"
     = true.
Proof.
  apply (extractTelegramError_is_a_stand_in (apiError 502 "Bad Gateway")
           {| OK := false; Result := ""; ErrorCode := 500;
              Description := "Server Error"; RetryAfter := 0 |}).
  reflexivity.
Defined.

(** ** Failures that end the call *)

(** X19: a failure that isRetryable rejects is returned as it is, while attempts
    remain: no wait, no further attempt, one "non-retryable error" record
    after the trace of the attempt. *)
Theorem SendMessage_returns_terminal_failure
  (errors_As : GoError -> AsResult TelegramResponse) (w : World)
  (t : TelegramAPI) (e : GoError) :
  ValidateConfig t.(config) = None ->
  0 < t.(config).(MaxRetries) ->
  fst (fst (sendMessageOnce t w 0)) = inl e ->
  isRetryable e = false ->
  SendMessage_with errors_As w t
  = (Returned (inl e),
     with_breaker t (snd (fst (sendMessageOnce t w 0))),
     (snd (sendMessageOnce t w 0) ++ [nonRetryableRecord e 0])%list).
Proof.
  intros Hcfg Hmax Hsend Hterm.
  unfold SendMessage_with. first_iteration Hcfg.
  destruct (sendMessageOnce t w 0) as [[r cb] evs].
  cbn [fst snd] in *. subst r. rewrite Hterm. reflexivity.
Qed.

Lemma SendMessage_returns_terminal_failure_witness :
  let w := steadyWorld 0 None (apiFailure 401 "" "Unauthorized") in
  SendMessage_with As_TelegramResponse w defaultAPI
  = (Returned (inl (apiError 401 "Unauthorized")),
     with_breaker defaultAPI (snd (fst (sendMessageOnce defaultAPI w 0))),
     (snd (sendMessageOnce defaultAPI w 0)
      ++ [nonRetryableRecord (apiError 401 "Unauthorized") 0])%list).
Proof.
  apply (SendMessage_returns_terminal_failure As_TelegramResponse
           (steadyWorld 0 None (apiFailure 401 "" "Unauthorized")) defaultAPI
           (apiError 401 "Unauthorized")).
  - reflexivity.
  - reflexivity.
  - vm_compute. reflexivity.
  - vm_compute. reflexivity.
Defined.

Lemma retryable_failure_panics_witness :
  fst (fst (SendMessage
              (steadyWorld 0 None (apiFailure 503 "" "Service Unavailable"))
              defaultAPI))
  = Panicked "errors: *target must be interface or implement error"
  /\ snd (SendMessage
            (steadyWorld 0 None (apiFailure 503 "" "Service Unavailable"))
            defaultAPI)
     = snd (sendMessageOnce defaultAPI
              (steadyWorld 0 None (apiFailure 503 "" "Service Unavailable")) 0).
Proof.
  apply (retryable_failure_panics
           (steadyWorld 0 None (apiFailure 503 "" "Service Unavailable"))
           defaultAPI (apiError 503 "Service Unavailable")).
  - reflexivity.
  - reflexivity.
  - vm_compute. reflexivity.
  - vm_compute. reflexivity.
Defined.

Lemma sendMessageOnce_api_failure_witness :
  fst (fst (sendMessageOnce defaultAPI
              (steadyWorld 0 None (apiFailure 400 "" "Bad Request: chat not found"))
              0))
  = inl (apiError 400 "Bad Request: chat not found").
Proof.
  apply (sendMessageOnce_api_failure defaultAPI
           (steadyWorld 0 None (apiFailure 400 "" "Bad Request: chat not found"))
           0 400 ""
           {| ok := false; result := ""; error_code := 400;
              description := "Bad Request: chat not found" |}).
  - reflexivity.
  - reflexivity.
  - reflexivity.
  - reflexivity.
Defined.

(** ** The credential in the create-request error *)


(** ** Timeouts of the transport *)

(** X25: a round trip that fails in [Do] or while the body is read, with a cause
    that is a [net.Error] reporting a timeout, is classified as retryable,
    whatever the URL and the text of the cause. *)
Theorem isRetryable_transport_timeout
  (t : TelegramAPI) (cause : GoError) (method : string) :
  implements_netError cause = true ->
  Timeout cause = Some true ->
  (exists e,
     fst (executeRequest t (DoFails cause) method) = inl e
     /\ isRetryable e = true)
  /\ (exists e,
        fst (executeRequest t (ReadAllFails cause) method) = inl e
        /\ isRetryable e = true).
Proof.
  intros Himpl Htime. split; eexists; (split; [reflexivity|]).
  - unfold isRetryable, fmt.Errorf_w.
    cbn [errors.As_netError implements_netError Timeout].
    rewrite Htime. reflexivity.
  - unfold isRetryable, fmt.Errorf_w.
    cbn [errors.As_netError implements_netError].
    destruct cause; try discriminate; cbn [errors.As_netError implements_netError];
      rewrite Htime; reflexivity.
Qed.

Lemma isRetryable_transport_timeout_witness :
  (exists e,
     fst (executeRequest defaultAPI (DoFails (opError "i/o timeout" true))
            "sendMessage") = inl e
     /\ isRetryable e = true)
  /\ (exists e,
        fst (executeRequest defaultAPI
               (ReadAllFails (opError "i/o timeout" true)) "sendMessage")
        = inl e
        /\ isRetryable e = true).
Proof.
  apply (isRetryable_transport_timeout defaultAPI
           (opError "i/o timeout" true) "sendMessage").
  - reflexivity.
  - reflexivity.
Defined.
